(** * Startup motivational quote service (app.py): embedding and properties

    The service is one Flask module.  The development follows its three
    functions:

    - [generate_motivational_prompt]: progress arithmetic and the phase/tone
      buckets;
    - [get_quote_from_llm]: one outbound call and the normalisation of the
      reply into a quote or an error text;
    - [get_motivational_quote]: validation of the query parameters, the
      fallback quotes and the shape of the JSON answer.

    Python values are embedded as follows.  A [str] is the list of its code
    points, restricted to code points below 256 (one [ascii] each); on that
    range [str.lower] is a per-character map and the characters removed by
    [str.strip()] are the twelve listed in [isspace].  An [int] is a [Z].  A
    [float] is a binary64 value of [SpecFloat] (precision 53, [emax] 1024).
    Exceptions are carried by an error monad whose error is the text
    [str(e)]; the monad also records the outbound calls and the divisions
    that were evaluated.  [print] is not modelled. *)

From Stdlib Require Import List Ascii String ZArith Bool Lia Arith.
From Stdlib Require Import SpecFloat DecimalString.
Import ListNotations.

Local Open Scope Z_scope.
Local Open Scope list_scope.

(** ** Python text *)

Module PyStr.

Definition str := list ascii.

(** A literal. *)
Definition py (s : string) : str := list_ascii_of_string s.

(** The double-quote and single-quote characters. *)
Definition dquote : ascii := ascii_of_nat 34.
Definition squote : ascii := ascii_of_nat 39.

Definition code (c : ascii) : nat := nat_of_ascii c.

(** [c.isspace()] for a code point below 256. *)
Definition isspace (c : ascii) : bool :=
  let n := code c in
  ((9 <=? n) && (n <=? 13) || (28 <=? n) && (n <=? 32)
   || (n =? 133) || (n =? 160))%nat.

(** [c.lower()] for a code point below 256: A-Z and the accented capitals
    U+00C0..U+00DE except the multiplication sign U+00D7. *)
Definition lower_char (c : ascii) : ascii :=
  let n := code c in
  if ((65 <=? n) && (n <=? 90)
      || (192 <=? n) && (n <=? 222) && negb (n =? 215))%nat
  then ascii_of_nat (n + 32) else c.

Definition lower (s : str) : str := map lower_char s.

Definition eqb_char (a b : ascii) : bool := Ascii.eqb a b.

Fixpoint dropWhile (p : ascii -> bool) (s : str) : str :=
  match s with
  | [] => []
  | c :: s' => if p c then dropWhile p s' else s
  end.

(** [s.lstrip(..)], [s.rstrip(..)], [s.strip(..)] for a set of characters
    given as a predicate. *)
Definition lstrip_by (p : ascii -> bool) (s : str) : str := dropWhile p s.
Definition rstrip_by (p : ascii -> bool) (s : str) : str :=
  rev (dropWhile p (rev s)).
Definition strip_by (p : ascii -> bool) (s : str) : str :=
  rstrip_by p (lstrip_by p s).

(** [s.strip()] *)
Definition strip (s : str) : str := strip_by isspace s.

(** [s.strip(chars)] *)
Definition strip_chars (chars : str) (s : str) : str :=
  strip_by (fun c => existsb (eqb_char c) chars) s.

(** [s.startswith(p)] *)
Fixpoint startswith (p s : str) : bool :=
  match p, s with
  | [], _ => true
  | _ :: _, [] => false
  | a :: p', b :: s' => eqb_char a b && startswith p' s'
  end.

(** [s.endswith(p)] *)
Definition endswith (p s : str) : bool := startswith (rev p) (rev s).

(** [sub in s] *)
Fixpoint contains (sub s : str) : bool :=
  startswith sub s ||
  match s with
  | [] => false
  | _ :: s' => contains sub s'
  end.

(** [s.split(sep, maxsplit)] for a non-empty [sep]; [maxsplit = None] stands
    for no limit.  The scan goes left to right; [skip] counts the
    characters of a separator just matched that are still to be passed
    over, [cur] is the current piece, reversed. *)
Fixpoint split_go (sep : str) (maxsplit : option nat) (skip : nat)
    (cur : str) (s : str) : list str :=
  match s with
  | [] => [rev cur]
  | c :: s' =>
      match skip with
      | S k => split_go sep maxsplit k cur s'
      | O =>
          let may := match maxsplit with Some O => false | _ => true end in
          if may && startswith sep s then
            rev cur ::
              split_go sep
                (match maxsplit with Some n => Some (Nat.pred n) | None => None end)
                (Nat.pred (List.length sep)) [] s'
          else split_go sep maxsplit O (c :: cur) s'
      end
  end.

Definition split (sep : str) (s : str) : list str :=
  split_go sep None O [] s.

Definition split_max (sep : str) (maxsplit : nat) (s : str) : list str :=
  split_go sep (Some maxsplit) O [] s.

(** [l[-1]] on a non-empty list of pieces (a split never returns an empty
    list). *)
Definition last_piece (l : list str) : str := last l [].

(** [s[:-1]] *)
Definition drop_last (s : str) : str := removelast s.

(** [s[:n]] *)
Definition take (n : nat) (s : str) : str := firstn n s.

(** Truth value of a string. *)
Definition truthy (s : str) : bool :=
  match s with [] => false | _ => true end.

(** [str(n)] for an integer. *)
Definition str_of_int (z : Z) : str :=
  list_ascii_of_string (NilZero.string_of_int (Z.to_int z)).

(** No character of the set [p] at either end of [s]: what a [strip]
    leaves. *)
Definition edge_free (p : ascii -> bool) (s : str) : Prop :=
  (forall c s', s = c :: s' -> p c = false) /\
  (forall c s', s = s' ++ [c] -> p c = false).

(** [c.join(pieces)] for a one-character [c]. *)
Fixpoint join_char (c : ascii) (pieces : list str) : str :=
  match pieces with
  | [] => []
  | [x] => x
  | x :: rest => x ++ c :: join_char c rest
  end.

End PyStr.

(** ** Python numbers *)

Module PyNum.
Import PyStr.

(** The result of an expression that may raise: the value, or the text
    [str(e)] of the exception. *)
Inductive outcome (A : Type) : Type :=
| Ok (a : A)
| Raise (e : str).
Arguments Ok {A} a.
Arguments Raise {A} e.

(** *** [int(s)] on a string

    [int] passes over whitespace before and after the numeral, and its
    whitespace is not that of [str.strip()]: it is the tab, the line feed,
    the vertical tab, the form feed, the carriage return and the space,
    and, of the code points above U+007F, the two that are whitespace
    (U+0085 and U+00A0), which the conversion first turns into spaces.
    The separators U+001C..U+001F are removed by [strip()] and refused by
    [int].  Between the whitespace stand an optional sign and decimal
    digits, with single underscores allowed between digits.  A numeral of
    more than [int_max_str_digits] digits, leading zeros counted and
    underscores not, is refused: that is the interpreter's limit on the
    conversion, left at its default by the program.  [None] stands for
    [ValueError]. *)
Definition int_space (c : ascii) : bool :=
  let n := code c in
  ((9 <=? n) && (n <=? 13) || (n =? 32) || (n =? 133) || (n =? 160))%nat.

Definition int_max_str_digits : nat := 4300.

Definition digit_val (c : ascii) : option Z :=
  let n := code c in
  if ((48 <=? n) && (n <=? 57))%nat then Some (Z.of_nat n - 48) else None.

Definition is_digit (c : ascii) : bool :=
  match digit_val c with
  | Some _ => true
  | None => false
  end.

Definition count_digits (s : str) : nat := List.length (filter is_digit s).

Fixpoint parse_digits (acc : Z) (after_digit : bool) (s : str) : option Z :=
  match s with
  | [] => if after_digit then Some acc else None
  | c :: s' =>
      match digit_val c with
      | Some d => parse_digits (10 * acc + d) true s'
      | None =>
          if eqb_char c "_"%char && after_digit
          then parse_digits acc false s' else None
      end
  end.

(** The numeral after the sign. *)
Definition int_literal (r : str) : option Z :=
  if (int_max_str_digits <? count_digits r)%nat then None
  else parse_digits 0 false r.

Definition int_of_str (s : str) : option Z :=
  match strip_by int_space s with
  | c :: r =>
      if eqb_char c "+"%char then int_literal r
      else if eqb_char c "-"%char then option_map Z.opp (int_literal r)
      else int_literal (c :: r)
  | [] => None
  end.

(** *** Floats: binary64 *)

Definition prec : Z := 53.
Definition emax : Z := 1024.
Definition float := spec_float.

(** An integer as the exact ratio [z * 2^0], before any rounding. *)
Definition exact_int (z : Z) : float :=
  match z with
  | Z0 => S754_zero false
  | Zpos p => S754_finite false p 0
  | Zneg p => S754_finite true p 0
  end.

(** [float(z)], rounded to nearest even. *)
Definition float_of_int (z : Z) : float := binary_normalize prec emax z 0 false.

(** [a / b] on two integers: the exact quotient, correctly rounded. *)
Definition truediv (a b : Z) : outcome float :=
  if b =? 0 then Raise (py "division by zero")
  else
    match SFdiv prec emax (exact_int a) (exact_int b) with
    | S754_infinity _ => Raise (py "integer division result too large for a float")
    | q => Ok q
    end.

(** [x * n] and [x < n] for a float and a small integer constant. *)
Definition mul_int (x : float) (n : Z) : float :=
  SFmul prec emax x (float_of_int n).
Definition lt_int (x : float) (n : Z) : bool :=
  SFltb x (float_of_int n).

(** The integer nearest to [n / d] for [d > 0], ties to even. *)
Definition div_half_even (n d : Z) : Z :=
  let q := n / d in
  match 2 * (n mod d) ?= d with
  | Lt => q
  | Gt => q + 1
  | Eq => if Z.even q then q else q + 1
  end.

(** [round(x, 1)]: the exact value of [x] is rounded, ties to even, to a
    number of tenths [t]; the result is the float nearest to [t / 10].
    Infinities and NaN round to themselves. *)
Definition tenths (m : positive) (e : Z) : Z :=
  match e with
  | Zneg p => div_half_even (10 * Zpos m) (2 ^ Zpos p)
  | _ => 10 * Zpos m * 2 ^ e
  end.

Definition round1 (x : float) : float :=
  match x with
  | S754_finite s m e =>
      match tenths m e with
      | Zpos t => SFdiv prec emax (S754_finite s t 0) (S754_finite false 10 0)
      | _ => S754_zero s
      end
  | _ => x
  end.

End PyNum.

(** ** The application *)

Module App.
Import PyStr PyNum.

(** *** Values exchanged with the outside *)

(** The prompt is a fixed template; it is represented by the values that
    [generate_motivational_prompt] interpolates into it ([progress] is
    printed with one decimal). *)
Record prompt := {
  p_days_completed : Z;
  p_total_target : Z;
  p_days_left : Z;
  p_progress : float;
  p_phase : str;
  p_tone : str
}.

(** A field of the upstream message: a string, or a value of another JSON
    type. *)
Inductive pytype := NoneType | TBool | TInt | TFloat | TList | TDict.

Definition type_name (t : pytype) : str :=
  match t with
  | NoneType => py "NoneType"
  | TBool => py "bool"
  | TInt => py "int"
  | TFloat => py "float"
  | TList => py "list"
  | TDict => py "dict"
  end.

Inductive field := Str (s : str) | NonStr (t : pytype).

(** [response_data['choices'][0]['message']], a JSON object; a key that is
    absent is [None] here. *)
Record message := {
  content : option field;
  reasoning : option field
}.

(** What [requests.post] returned: the status code and the outcome of
    reading the first choice's message out of the body (an exception when
    the body is not JSON or has another shape). *)
Record http_response := {
  status_code : Z;
  first_message : outcome message
}.

(** The surroundings of one request: the upstream endpoint, which may also
    fail to answer (an exception), and the number drawn by [random]. *)
Record world := {
  requests_post : prompt -> outcome http_response;
  random_draw : nat
}.

(** A JSON value of an answer and the answer itself. *)
Inductive json :=
| JNull
| JStr (s : str)
| JInt (z : Z)
| JFloat (x : float).

Record response := {
  status : Z;
  body : list (str * json)
}.

(** *** Effects

    A computation yields a value or raises, and records what it did: the
    divisions it evaluated and the calls it sent upstream. *)
Inductive event :=
| Divided (a b : Z)
| Posted (p : prompt).

Definition M (A : Type) : Type := (outcome A * list event)%type.

Definition ret {A} (a : A) : M A := (Ok a, []).
Definition raise {A} (e : str) : M A := (Raise e, []).
Definition bind {A B} (m : M A) (k : A -> M B) : M B :=
  match m with
  | (Ok a, t) => let '(r, t') := k a in (r, t ++ t')
  | (Raise e, t) => (Raise e, t)
  end.
(** [try: m  except Exception as e: h e] *)
Definition try_except {A} (m : M A) (h : str -> M A) : M A :=
  match m with
  | (Ok a, t) => (Ok a, t)
  | (Raise e, t) => let '(r, t') := h e in (r, t ++ t')
  end.
Definition emit (ev : event) : M unit := (Ok tt, [ev]).
Definition lift {A} (o : outcome A) : M A := (o, []).

Notation "x <- m ;; k" := (bind m (fun x => k))
  (at level 61, m at next level, right associativity).
Notation "' p <- m ;; k" := (bind m (fun x => match x with p => k end))
  (at level 61, p pattern, m at next level, right associativity).

Definition divide (a b : Z) : M float :=
  _ <- emit (Divided a b) ;; lift (truediv a b).

Definition post (w : world) (p : prompt) : M http_response :=
  _ <- emit (Posted p) ;; lift (requests_post w p).

(** *** generate_motivational_prompt *)

Definition phase_tone (progress_percentage : float) : str * str :=
  if lt_int progress_percentage 25 then
    (py "beginning", py "energetic and encouraging")
  else if lt_int progress_percentage 50 then
    (py "early progress", py "motivating and momentum-building")
  else if lt_int progress_percentage 75 then
    (py "middle journey", py "resilient and persistent")
  else
    (py "final sprint", py "determined and finish-strong").

Definition generate_motivational_prompt (days_left total_target : Z) : M prompt :=
  let days_completed := total_target - days_left in
  q <- divide days_completed total_target ;;
  let progress_percentage := mul_int q 100 in
  let '(phase, tone) := phase_tone progress_percentage in
  ret {| p_days_completed := days_completed;
         p_total_target := total_target;
         p_days_left := days_left;
         p_progress := progress_percentage;
         p_phase := phase;
         p_tone := tone |}.

(** *** get_quote_from_llm *)

(** Calling the string method [attr] on a field: the receiver has to be a
    string. *)
Definition receiver (attr : str) (v : field) : M str :=
  match v with
  | Str s => ret s
  | NonStr t =>
      raise (py "'" ++ type_name t ++ py "' object has no attribute '"
             ++ attr ++ py "'")
  end.

Definition newline : str := [ascii_of_nat 10].

Definition keywords : list str := [py "quote:"; py "response:"; py "answer:"].

Definition has_keyword (line : str) : bool :=
  existsb (fun keyword => contains keyword (lower line)) keywords.

(** The loop over the lines, left at the first line with a keyword. *)
Fixpoint scan_lines (lines : list str) (quote : str) : str :=
  match lines with
  | [] => quote
  | line :: rest =>
      if has_keyword line
      then strip (last_piece (split_max (py ":") 1 line))
      else scan_lines rest quote
  end.

(** Lines 101-102: the text of [content], trimmed. *)
Definition primary (m : message) : M str :=
  c <- receiver (py "strip")
         (match content m with Some v => v | None => Str [] end) ;;
  ret (strip c).

(** Lines 108-121: the text taken from the reasoning [r], [quote] being the
    (empty) text found so far. *)
Definition from_reasoning (r : str) (quote : str) : str :=
  if contains (py "quote") (lower r) then
    let quote := scan_lines (split newline r) quote in
    if negb (truthy quote) then
      let quote := strip (last_piece (split (py ". ") r)) in
      if endswith (py ".") quote then drop_last quote else quote
    else quote
  else quote.

(** Lines 101-121. *)
Definition extract (m : message) : M str :=
  quote <- primary m ;;
  match reasoning m with
  | Some v =>
      if negb (truthy quote) then
        r <- receiver (py "lower") v ;;
        ret (from_reasoning r quote)
      else ret quote
  | None => ret quote
  end.

(** Line 125. *)
Definition unquote (quote : str) : str :=
  strip (strip_chars [squote] (strip_chars [dquote] quote)).

(** Lines 127-128. *)
Definition limit (quote : str) : str :=
  if (200 <? List.length quote)%nat then take 200 quote ++ py "..." else quote.

(** A pair [(quote, error)], each [None] or a string. *)
Definition result := (option str * option str)%type.

Definition normalize (m : message) : M result :=
  quote <- extract m ;;
  if truthy quote then ret (Some (limit (unquote quote)), None)
  else ret (None, Some (py "No quote generated in response")).

Definition get_quote_from_llm (w : world) (days_left total_target : Z) : M result :=
  try_except
    (prompt <- generate_motivational_prompt days_left total_target ;;
     response <- post w prompt ;;
     if status_code response =? 200 then
       m <- lift (first_message response) ;;
       normalize m
     else
       ret (None, Some (py "API Error: " ++ str_of_int (status_code response))))
    (fun e => ret (None, Some e)).

(** *** get_motivational_quote *)

(** [request.args]: the query parameters in the order received; [get]
    returns the first value of a key. *)
Definition args := list (str * str).

Definition str_eqb (a b : str) : bool :=
  if list_eq_dec ascii_dec a b then true else false.

Fixpoint args_get (key : str) (a : args) : option str :=
  match a with
  | [] => None
  | (k, v) :: rest => if str_eqb k key then Some v else args_get key rest
  end.

(** Truth value of [None] or a string. *)
Definition truthy_opt (o : option str) : bool :=
  match o with
  | Some s => truthy s
  | None => false
  end.

Definition json_of_opt (o : option str) : json :=
  match o with
  | Some s => JStr s
  | None => JNull
  end.

Definition fallback_quotes : list str := [
  py "Every day forward is a step closer to your vision becoming reality.";
  py "The entrepreneur's path isn't easy, but it's worth every challenge.";
  py "Your startup is built one decision, one day, one breakthrough at a time.";
  py "Progress isn't always visible, but persistence always pays off.";
  py "Today's small wins compound into tomorrow's big victories."
].

(** [random.choice(l)]: the element at an index below [len(l)]. *)
Definition random_choice (w : world) (l : list str) : M str :=
  match nth_error l (random_draw w mod List.length l)%nat with
  | Some x => ret x
  | None => raise (py "Cannot choose from an empty sequence")
  end.

Definition bad_request (fields : list (str * json)) : M response :=
  ret {| status := 400; body := fields |}.

Definition get_motivational_quote (w : world) (a : args) : M response :=
  try_except
    (let days_left := args_get (py "daysLeft") a in
     let total_target := args_get (py "totalTarget") a in
     if negb (truthy_opt days_left) || negb (truthy_opt total_target) then
       bad_request
         [(py "error", JStr (py "Both daysLeft and totalTarget parameters are required"));
          (py "usage", JStr (py "/quote?daysLeft=<number>&totalTarget=<number>"))]
     else
       match option_map int_of_str days_left, option_map int_of_str total_target with
       | Some (Some days_left), Some (Some total_target) =>
           if (days_left <? 0) || (total_target <=? 0) then
             bad_request
               [(py "error", JStr (py "daysLeft cannot be negative and totalTarget must be positive"))]
           else if days_left >? total_target then
             bad_request
               [(py "error", JStr (py "daysLeft cannot be greater than totalTarget"))]
           else
             '(quote, error) <- get_quote_from_llm w days_left total_target ;;
             if truthy_opt error then
               let days_completed := total_target - days_left in
               q <- divide days_completed total_target ;;
               let progress_percentage := mul_int q 100 in
               quote <- random_choice w fallback_quotes ;;
               ret {| status := 200;
                      body := [(py "quote", JStr quote);
                               (py "daysLeft", JInt days_left);
                               (py "totalTarget", JInt total_target);
                               (py "progressPercentage", JFloat (round1 progress_percentage));
                               (py "warning", JStr (py "Used fallback quote due to API issues"))] |}
             else
               let days_completed := total_target - days_left in
               q <- divide days_completed total_target ;;
               let progress_percentage := mul_int q 100 in
               ret {| status := 200;
                      body := [(py "quote", json_of_opt quote);
                               (py "daysLeft", JInt days_left);
                               (py "totalTarget", JInt total_target);
                               (py "daysCompleted", JInt days_completed);
                               (py "progressPercentage", JFloat (round1 progress_percentage))] |}
       | _, _ =>
           bad_request
             [(py "error", JStr (py "daysLeft and totalTarget must be valid numbers"))]
       end)
    (fun e =>
       ret {| status := 500;
              body := [(py "error", JStr (py "Internal server error"));
                       (py "message", JStr e)] |}).

(** *** Vocabulary of the statements *)

(** The four buckets of the progress percentage, with their bounds as
    the specification words them, and the labels of each. *)
Inductive bucket := Beginning | EarlyProgress | MiddleJourney | FinalSprint.

Definition in_bucket (x : float) (b : bucket) : Prop :=
  match b with
  | Beginning => lt_int x 25 = true
  | EarlyProgress => lt_int x 25 = false /\ lt_int x 50 = true
  | MiddleJourney => lt_int x 50 = false /\ lt_int x 75 = true
  | FinalSprint => lt_int x 75 = false
  end.

Definition labels (b : bucket) : str * str :=
  match b with
  | Beginning => (py "beginning", py "energetic and encouraging")
  | EarlyProgress => (py "early progress", py "motivating and momentum-building")
  | MiddleJourney => (py "middle journey", py "resilient and persistent")
  | FinalSprint => (py "final sprint", py "determined and finish-strong")
  end.

(** A query parameter read and converted: [None] when it is missing,
    [Some None] when it is there and is not an integer. *)
Definition param (key : str) (a : args) : option (option Z) :=
  option_map int_of_str (args_get key a).

(** The reasons for which a request is refused. *)
Definition refused (a : args) : Prop :=
  param (py "daysLeft") a = None \/
  param (py "totalTarget") a = None \/
  param (py "daysLeft") a = Some None \/
  param (py "totalTarget") a = Some None \/
  (exists days_left, param (py "daysLeft") a = Some (Some days_left) /\ days_left < 0) \/
  (exists total_target,
     param (py "totalTarget") a = Some (Some total_target) /\ total_target <= 0) \/
  (exists days_left total_target,
     param (py "daysLeft") a = Some (Some days_left) /\
     param (py "totalTarget") a = Some (Some total_target) /\
     days_left > total_target).

(** A request that passes validation, with its two numbers. *)
Definition validated (a : args) (days_left total_target : Z) : Prop :=
  param (py "daysLeft") a = Some (Some days_left) /\
  param (py "totalTarget") a = Some (Some total_target) /\
  0 <= days_left /\ 0 < total_target /\ days_left <= total_target.

(** Post-processing as the specification words it: one leading and
    trailing pair of a quote character is removed when the text has
    one. *)
Definition strip_one_pair (q : ascii) (s : str) : str :=
  match s with
  | c :: rest =>
      if eqb_char c q && endswith [q] rest then drop_last rest else s
  | [] => s
  end.

Definition unquote_one_pair (quote : str) : str :=
  strip (strip_one_pair squote (strip_one_pair dquote quote)).

(** [r] is [s] without a run of characters of the set [p] at each end,
    and has none left at its ends. *)
Definition stripped (p : ascii -> bool) (s r : str) : Prop :=
  exists pre post,
    s = pre ++ r ++ post /\
    Forall (fun c => p c = true) pre /\
    Forall (fun c => p c = true) post /\
    edge_free p r.

(** [u] is [quote] without its leading and trailing double quotes, then
    without the leading and trailing single quotes of what is left, then
    trimmed. *)
Definition unquoted (quote u : str) : Prop :=
  exists a b,
    stripped (fun c => eqb_char c dquote) quote a /\
    stripped (fun c => eqb_char c squote) a b /\
    stripped isspace b u.

(** *** Inputs of the examples *)

(** An empty [content] and a reasoning that ends in a marked quote. *)
Definition build_boldly : message :=
  {| content := Some (Str []);
     reasoning := Some (Str (py "... the quote: Build boldly.")) |}.

(** A reasoning of two lines: the first has the marker and nothing after
    it, the second ends with the sentence that is taken. *)
Definition marker_without_text : str :=
  py "Here is my quote:  " ++ newline ++ py "So be it. Keep shipping.".

(** A text between two pairs of double quotes. *)
Definition doubly_quoted : str :=
  [dquote; dquote] ++ py "Stay bold" ++ [dquote; dquote].

(** A text of 250 characters. *)
Definition long_text : str := repeat "a"%char 250.


(** A request whose [daysLeft] starts with the separator U+001C. *)
Definition separator_padded : args :=
  [(py "daysLeft", ascii_of_nat 28 :: py "5"); (py "totalTarget", py "100")].

(** *** Comparison with exact arithmetic *)

(** The number of tenths that [round1] reads off a float that is zero or
    positive. *)
Definition tenths_of (x : float) : option Z :=
  match x with
  | S754_zero _ => Some 0
  | S754_finite false m e => Some (tenths m e)
  | _ => None
  end.

(** The tenths computed in floating point are an integer nearest to the
    exact [1000 * days_completed / total_target]. *)
Definition exact_to_tenth (days_left total_target : Z) : bool :=
  match truediv (total_target - days_left) total_target with
  | Ok q =>
      match tenths_of (mul_int q 100) with
      | Some t =>
          2 * Z.abs (t * total_target - 1000 * (total_target - days_left))
          <=? total_target
      | None => false
      end
  | Raise _ => false
  end.

Definition upto (n : nat) : list Z := map Z.of_nat (seq 0 (S n)).


Definition all_exact_to_tenth (n : nat) : bool :=
  forallb (fun total_target =>
             (total_target =? 0) ||
             forallb (fun days_left =>
                        (total_target <? days_left) ||
                        exact_to_tenth days_left total_target)
                     (upto n))
          (upto n).

(** *** Vocabulary of the further statements *)

(** The prompt built for [days_left] and [total_target] when the quotient
    of the division is [q]. *)
Definition the_prompt (days_left total_target : Z) (q : float) : prompt :=
  {| p_days_completed := total_target - days_left;
     p_total_target := total_target;
     p_days_left := days_left;
     p_progress := mul_int q 100;
     p_phase := fst (phase_tone (mul_int q 100));
     p_tone := snd (phase_tone (mul_int q 100)) |}.

(** The fallback answer for the numbers of a request. *)
Definition fallback_answer (days_left total_target : Z) (q : float) (fq : str) : response :=
  {| status := 200;
     body := [(py "quote", JStr fq);
              (py "daysLeft", JInt days_left);
              (py "totalTarget", JInt total_target);
              (py "progressPercentage", JFloat (round1 (mul_int q 100)));
              (py "warning", JStr (py "Used fallback quote due to API issues"))] |}.

(** The text of the exception raised by a string method called on a
    value of type [t]. *)
Definition no_attribute (t : pytype) (attr : str) : str :=
  py "'" ++ type_name t ++ py "' object has no attribute '" ++ attr ++ py "'".

(** Where [num / den] lies between its integer part and the next
    integer. *)
Definition loc_of (num den : Z) : location :=
  let r := num mod den in
  if r =? 0 then loc_Exact else loc_Inexact (2 * r ?= den).

(** A record of a shift describes the ratio [num / den]: its mantissa is
    the integer part and its two bits tell where the ratio lies. *)
Definition describes (mrs : shr_record) (num den : Z) : Prop :=
  shr_m mrs = num / den /\ loc_of_shr_record mrs = loc_of num den.

(** A mantissa of 53 bits, or [2^53] after a carry, with its exponent. *)
Definition normalised (s : bool) (M e : Z) : float :=
  if M =? 2 ^ 53 then S754_finite s (Z.to_pos (2 ^ 52)) (e + 1)
  else S754_finite s (Z.to_pos M) e.

(** The bucket of [days_completed / total_target] in exact arithmetic:
    below a quarter, below a half, below three quarters, or above. *)
Definition exact_bucket (days_completed total_target : Z) : bucket :=
  if 4 * days_completed <? total_target then Beginning
  else if 2 * days_completed <? total_target then EarlyProgress
  else if 4 * days_completed <? 3 * total_target then MiddleJourney
  else FinalSprint.

(** The character of a decimal digit and the numeral of a list of
    digits, most significant first, with the number it writes. *)
Definition digit_char (d : nat) : ascii := ascii_of_nat (48 + d).

Definition numeral (ds : list nat) : str := map digit_char ds.

Definition number (ds : list nat) : Z :=
  fold_left (fun acc d => 10 * acc + Z.of_nat d) ds 0.

(** The characters that can occur in a text accepted by [int]. *)
Definition int_char (c : ascii) : bool :=
  match digit_val c with
  | Some _ => true
  | None =>
      int_space c || eqb_char c "_"%char || eqb_char c "+"%char || eqb_char c "-"%char
  end.

End App.

(** * Properties *)

Import PyStr PyNum App.

(** ** Text *)

Section Strip.
Variable p : ascii -> bool.

Lemma dropWhile_decompose (s : str) :
  exists pre, s = pre ++ dropWhile p s /\ Forall (fun c => p c = true) pre.
Proof.
  induction s as [|c s IH]; simpl.
  - exists []. split; [reflexivity | constructor].
  - destruct (p c) eqn:Hc.
    + destruct IH as (pre & Hs & Hpre).
      exists (c :: pre). split.
      * simpl. f_equal. exact Hs.
      * constructor; assumption.
    + exists []. split; [reflexivity | constructor].
Qed.

Lemma dropWhile_head (s : str) c s' :
  dropWhile p s = c :: s' -> p c = false.
Proof.
  induction s as [|x s IH]; simpl; [discriminate|].
  destruct (p x) eqn:Hx; [exact IH|].
  intros H. injection H as -> _. exact Hx.
Qed.

Lemma dropWhile_all (s : str) :
  Forall (fun c => p c = true) s -> dropWhile p s = [].
Proof.
  induction 1 as [|c s Hc _ IH]; simpl; [reflexivity|].
  rewrite Hc. exact IH.
Qed.

Lemma dropWhile_fixed (s : str) :
  (forall c s', s = c :: s' -> p c = false) -> dropWhile p s = s.
Proof.
  destruct s as [|c s]; simpl; [reflexivity|].
  intros H. rewrite (H c s eq_refl). reflexivity.
Qed.

(** [strip] removes a run of characters of the set at each end, and what
    is left has none at its ends. *)
Lemma strip_by_spec (s : str) :
  exists pre post,
    s = pre ++ strip_by p s ++ post /\
    Forall (fun c => p c = true) pre /\
    Forall (fun c => p c = true) post /\
    edge_free p (strip_by p s).
Proof.
  unfold strip_by, rstrip_by, lstrip_by.
  destruct (dropWhile_decompose s) as (pre & Hs & Hpre).
  set (mid := dropWhile p s) in *.
  destruct (dropWhile_decompose (rev mid)) as (tsop & Hm & Hpost).
  set (dim := dropWhile p (rev mid)) in *.
  assert (Hmid : mid = rev dim ++ rev tsop).
  { rewrite <- rev_app_distr, <- Hm, rev_involutive. reflexivity. }
  exists pre, (rev tsop). repeat split.
  - rewrite Hs at 1. f_equal. exact Hmid.
  - exact Hpre.
  - apply Forall_rev. exact Hpost.
  - intros c s' Hc.
    assert (Hd : mid = c :: s' ++ rev tsop) by (rewrite Hmid, Hc; reflexivity).
    exact (dropWhile_head s c _ Hd).
  - intros c s' Hc.
    assert (Hd : dim = c :: rev s').
    { rewrite <- (rev_involutive dim), Hc, rev_app_distr. reflexivity. }
    exact (dropWhile_head (rev mid) c _ Hd).
Qed.

Lemma strip_by_edge_free (s : str) : edge_free p s -> strip_by p s = s.
Proof.
  intros [Hl Hr]. unfold strip_by, rstrip_by, lstrip_by.
  rewrite (dropWhile_fixed s Hl).
  rewrite dropWhile_fixed; [apply rev_involutive|].
  intros c s' Hc. apply (Hr c (rev s')).
  rewrite <- (rev_involutive s), Hc. reflexivity.
Qed.

End Strip.

Lemma Forall_eqb_repeat (q : ascii) (l : str) :
  Forall (fun c => existsb (eqb_char c) [q] = true) l ->
  l = repeat q (List.length l).
Proof.
  induction 1 as [|c l Hc _ IH]; simpl; [reflexivity|].
  simpl in Hc. rewrite orb_false_r in Hc.
  apply Ascii.eqb_eq in Hc. subst c. f_equal. exact IH.
Qed.

(** [s.strip(q)] for a one-character set: every leading and every trailing
    [q] goes. *)
Lemma strip_chars_one_spec (q : ascii) (s : str) :
  exists n k,
    s = repeat q n ++ strip_chars [q] s ++ repeat q k /\
    edge_free (fun c => eqb_char c q) (strip_chars [q] s).
Proof.
  unfold strip_chars.
  destruct (strip_by_spec (fun c => existsb (eqb_char c) [q]) s)
    as (pre & post & Hs & Hpre & Hpost & Hl & Hr).
  exists (List.length pre), (List.length post). split.
  - rewrite <- (Forall_eqb_repeat q pre Hpre), <- (Forall_eqb_repeat q post Hpost).
    exact Hs.
  - split; intros c s' Hc.
    + specialize (Hl c s' Hc). simpl in Hl. rewrite orb_false_r in Hl. exact Hl.
    + specialize (Hr c s' Hc). simpl in Hr. rewrite orb_false_r in Hr. exact Hr.
Qed.

(** *** Splitting on one character *)

Lemma split_go_exhausted (sep : str) (s cur : str) :
  split_go sep (Some O) O cur s = [rev cur ++ s].
Proof.
  revert cur. induction s as [|c s IH]; intros cur; simpl.
  - rewrite app_nil_r. reflexivity.
  - rewrite IH. simpl. rewrite <- app_assoc. reflexivity.
Qed.

Lemma split_go_char_absent (c : ascii) (mx : option nat) (s cur : str) :
  ~ In c s -> split_go [c] mx O cur s = [rev cur ++ s].
Proof.
  revert cur. induction s as [|x s IH]; intros cur Hin; simpl.
  - rewrite app_nil_r. reflexivity.
  - assert (Hx : eqb_char c x = false).
    { apply Ascii.eqb_neq. intros ->. apply Hin. left. reflexivity. }
    rewrite Hx, andb_false_r. simpl.
    rewrite IH by (intros H; apply Hin; right; exact H).
    simpl. rewrite <- app_assoc. reflexivity.
Qed.

Lemma split_go_char_first (c : ascii) (mx : option nat) (a b cur : str) :
  ~ In c a -> mx <> Some O ->
  split_go [c] mx O cur (a ++ c :: b) =
  (rev cur ++ a) ::
    split_go [c] (match mx with Some n => Some (Nat.pred n) | None => None end)
      O [] b.
Proof.
  revert cur. induction a as [|x a IH]; intros cur Hin Hmx.
  - rewrite app_nil_r.
    destruct mx as [[|n]|]; [congruence| |];
      cbn [app split_go startswith]; unfold eqb_char;
      rewrite Ascii.eqb_refl; reflexivity.
  - cbn [app split_go startswith].
    assert (Hx : eqb_char c x = false).
    { apply Ascii.eqb_neq. intros ->. apply Hin. left. reflexivity. }
    rewrite Hx, andb_false_r. cbn [andb].
    rewrite IH; [|intros H; apply Hin; right; exact H|exact Hmx].
    simpl. rewrite <- app_assoc. reflexivity.
Qed.

(** [line.split(c, 1)[-1]]: what follows the first [c], or the whole line
    when there is none. *)
Lemma after_first_char (c : ascii) (a b : str) :
  ~ In c a -> last_piece (split_max [c] 1 (a ++ c :: b)) = b.
Proof.
  intros Hin. unfold split_max.
  rewrite split_go_char_first by (assumption || discriminate).
  simpl Nat.pred. rewrite split_go_exhausted. reflexivity.
Qed.

Lemma after_first_char_none (c : ascii) (s : str) :
  ~ In c s -> last_piece (split_max [c] 1 s) = s.
Proof.
  intros Hin. unfold split_max.
  rewrite split_go_char_absent by assumption. reflexivity.
Qed.

Lemma split_join_char (c : ascii) (pieces : list str) :
  pieces <> [] ->
  Forall (fun x => ~ In c x) pieces ->
  split [c] (join_char c pieces) = pieces.
Proof.
  intros Hne Hall. unfold split. revert Hne.
  induction Hall as [|x rest Hx Hrest IH]; intros Hne;
    [exfalso; apply Hne; reflexivity|].
  destruct rest as [|y rest].
  - simpl. apply split_go_char_absent. exact Hx.
  - change (join_char c (x :: y :: rest)) with (x ++ c :: join_char c (y :: rest)).
    rewrite split_go_char_first by (assumption || discriminate).
    simpl rev. simpl app at 1. f_equal. apply IH. discriminate.
Qed.

(** *** Splitting on a pair of characters *)

Lemma split_go_nonempty (sep : str) (mx : option nat) (s : str) :
  forall skip cur, split_go sep mx skip cur s <> [].
Proof.
  revert mx. induction s as [|c s IH]; intros mx skip cur; simpl; [discriminate|].
  destruct skip; [|apply IH].
  destruct (_ && _); [discriminate | apply IH].
Qed.

Lemma last_cons_nonempty {A} (x : A) (l : list A) (d : A) :
  l <> [] -> last (x :: l) d = last l d.
Proof. destruct l; [congruence | reflexivity]. Qed.

(** No occurrence of the separator: one piece. *)
Lemma split_go_absent (sep : str) (s : str) :
  forall cur, contains sep s = false ->
  split_go sep None O cur s = [rev cur ++ s].
Proof.
  induction s as [|c s IH]; intros cur Hc.
  - simpl. rewrite app_nil_r. reflexivity.
  - cbn [contains] in Hc. apply orb_false_iff in Hc. destruct Hc as [Hs Hc].
    cbn [split_go]. cbn [andb]. rewrite Hs.
    rewrite (IH (c :: cur) Hc). simpl. rewrite <- app_assoc. reflexivity.
Qed.

(** The last piece of a split on two distinct characters is what follows
    the last occurrence of the pair. *)
Lemma last_piece_after_pair (c1 c2 : ascii) (b : str) :
  c1 <> c2 -> contains [c1; c2] b = false ->
  forall n a cur, (List.length a <= n)%nat ->
  last_piece (split_go [c1; c2] None O cur (a ++ c1 :: c2 :: b)) = b.
Proof.
  intros Hne Hb. unfold last_piece.
  induction n as [|n IH]; intros a cur Hlen.
  - destruct a; [|simpl in Hlen; lia].
    cbn [app split_go startswith andb List.length Nat.pred].
    unfold eqb_char. rewrite !Ascii.eqb_refl. cbn [andb].
    rewrite last_cons_nonempty by apply split_go_nonempty.
    rewrite (split_go_absent [c1; c2] b [] Hb). reflexivity.
  - destruct a as [|x a].
    + apply (IH [] cur). simpl. lia.
    + cbn [app split_go andb List.length Nat.pred].
      destruct (startswith [c1; c2] (x :: a ++ c1 :: c2 :: b)) eqn:Hst.
      * rewrite last_cons_nonempty by apply split_go_nonempty.
        cbn [startswith] in Hst.
        apply andb_true_iff in Hst. destruct Hst as [_ Hst].
        destruct a as [|y a].
        { cbn [app startswith] in Hst. rewrite andb_true_r in Hst.
          apply Ascii.eqb_eq in Hst. congruence. }
        cbn [app split_go]. apply IH. simpl in Hlen. lia.
      * apply IH. simpl in Hlen. lia.
Qed.

(** [s.split(". ")[-1]]: what follows the last ". ", or all of [s] when
    there is none. *)
Lemma last_sentence_after (s1 s2 : str) :
  contains (py ". ") s2 = false ->
  last_piece (split (py ". ") (s1 ++ py ". " ++ s2)) = s2.
Proof.
  intros H. unfold split.
  apply (last_piece_after_pair "."%char " "%char s2 ltac:(discriminate) H
           (List.length s1) s1 []).
  apply Nat.le_refl.
Qed.

Lemma last_sentence_whole (s : str) :
  contains (py ". ") s = false -> last_piece (split (py ". ") s) = s.
Proof.
  intros H. unfold split. rewrite (split_go_absent _ s [] H). reflexivity.
Qed.

(** ** Numbers *)

(** *** The quotient of two integers [0 <= a <= b] does not overflow *)

Lemma digits2_pos_log2 (p : positive) :
  Zpos (digits2_pos p) = Z.log2 (Zpos p) + 1.
Proof.
  assert (Hsize : forall q, digits2_pos q = Pos.size q).
  { induction q as [q IH|q IH|]; simpl; congruence. }
  destruct p; simpl; rewrite ?Hsize; lia.
Qed.

Lemma Zdigits2_log2 (m : Z) : 0 < m -> Zdigits2 m = Z.log2 m + 1.
Proof.
  destruct m as [|p|p]; try lia. intros _. apply digits2_pos_log2.
Qed.

Lemma Zdigits2_nonneg (m : Z) : 0 <= Zdigits2 m.
Proof. destruct m; simpl; lia. Qed.

Lemma Zdigits2_mono (m n : Z) : 0 <= m <= n -> Zdigits2 m <= Zdigits2 n.
Proof.
  intros [Hm Hmn].
  destruct (Z.eq_dec m 0) as [->|Hm0]; [apply Zdigits2_nonneg|].
  rewrite !Zdigits2_log2 by lia.
  pose proof (Z.log2_le_mono m n Hmn). lia.
Qed.

Lemma Zdigits2_succ (m : Z) : 0 <= m -> Zdigits2 (m + 1) <= Zdigits2 m + 1.
Proof.
  intros Hm.
  destruct (Z.eq_dec m 0) as [->|Hm0]; [simpl; lia|].
  rewrite !Zdigits2_log2 by lia.
  pose proof (Z.log2_succ_le m). unfold Z.succ in *. lia.
Qed.

Lemma Zdigits2_le_pow2 (m s : Z) :
  0 <= s -> 0 <= m <= 2 ^ s -> Zdigits2 m <= s + 1.
Proof.
  intros Hs [Hm Hms].
  destruct (Z.eq_dec m 0) as [->|Hm0]; [simpl; lia|].
  rewrite Zdigits2_log2 by lia.
  pose proof (Z.log2_le_mono m (2 ^ s) Hms) as H.
  rewrite Z.log2_pow2 in H by lia. lia.
Qed.

Lemma shr_1_bounds (r : shr_record) :
  0 <= shr_m r -> 0 <= shr_m (shr_1 r) <= shr_m r.
Proof.
  destruct r as [m b s]. destruct m as [|[p|p|]|p]; simpl; lia.
Qed.

Lemma iter_shr_1_bounds (p : positive) :
  forall r, 0 <= shr_m r -> 0 <= shr_m (iter_pos shr_1 p r) <= shr_m r.
Proof.
  induction p as [p IH|p IH|]; intros r Hr; simpl.
  - pose proof (shr_1_bounds r Hr) as H1.
    pose proof (IH (shr_1 r) (proj1 H1)) as H2.
    pose proof (IH _ (proj1 H2)) as H3. lia.
  - pose proof (IH r Hr) as H2.
    pose proof (IH _ (proj1 H2)) as H3. lia.
  - apply shr_1_bounds. exact Hr.
Qed.

Lemma shr_m_of_loc (m : Z) (l : location) : shr_m (shr_record_of_loc m l) = m.
Proof. destruct l as [|[| |]]; reflexivity. Qed.

(** One alignment step either leaves mantissa and exponent alone or moves
    to the exponent [fexp] asks for, with a mantissa that is not larger. *)
Lemma shr_fexp_cases (m e : Z) (l : location) :
  0 <= m ->
  let '(r, e') := shr_fexp prec emax m e l in
  (shr_m r = m /\ e' = e) \/
  (0 <= shr_m r <= m /\ e' = fexp prec emax (Zdigits2 m + e)).
Proof.
  intros Hm. unfold shr_fexp, shr.
  destruct (fexp prec emax (Zdigits2 m + e) - e) as [|p|p] eqn:Hn.
  - left. split; [apply shr_m_of_loc | reflexivity].
  - right. split; [|lia].
    rewrite <- (shr_m_of_loc m l) at 3. apply iter_shr_1_bounds.
    rewrite shr_m_of_loc. exact Hm.
  - left. split; [apply shr_m_of_loc | reflexivity].
Qed.

Lemma round_nearest_even_bounds (m : Z) (l : location) :
  0 <= m -> 0 <= round_nearest_even m l <= m + 1.
Proof.
  intros Hm. destruct l as [|[| |]]; simpl; try lia.
  destruct (Z.even m); lia.
Qed.

Lemma fexp_le (x b : Z) : x <= b + 53 -> -1074 <= b -> fexp prec emax x <= b.
Proof. unfold fexp, emin, prec, emax. lia. Qed.

Lemma binary_round_aux_no_overflow (sx : bool) (mx ex : Z) (lx : location) :
  0 <= mx -> ex <= 971 -> Zdigits2 mx <= 1075 -> Zdigits2 mx + ex <= 1 ->
  forall s, binary_round_aux prec emax sx mx ex lx <> S754_infinity s.
Proof.
  intros Hm He Hd HD s. unfold binary_round_aux.
  pose proof (shr_fexp_cases mx ex lx Hm) as H1.
  destruct (shr_fexp prec emax mx ex lx) as [r1 e1].
  set (m2 := round_nearest_even (shr_m r1) (loc_of_shr_record r1)).
  assert (Hr1 : 0 <= shr_m r1 <= mx) by (destruct H1 as [[-> _]|[H _]]; lia).
  assert (Hm2 : 0 <= m2 <= shr_m r1 + 1)
    by (apply round_nearest_even_bounds; lia).
  assert (Hd2 : Zdigits2 m2 <= Zdigits2 (shr_m r1) + 1).
  { etransitivity; [apply Zdigits2_mono; exact Hm2|].
    apply Zdigits2_succ. lia. }
  assert (He1 : e1 <= 971 /\ Zdigits2 m2 + e1 <= 1024).
  { destruct H1 as [[Hr ->]|[Hr ->]].
    - rewrite Hr in Hd2. lia.
    - pose proof (fexp_le (Zdigits2 mx + ex) (-52)) as Hf.
      pose proof (Zdigits2_mono (shr_m r1) mx Hr1). lia. }
  pose proof (shr_fexp_cases m2 e1 loc_Exact (proj1 Hm2)) as H2.
  destruct (shr_fexp prec emax m2 e1 loc_Exact) as [r2 e2].
  assert (He2 : e2 <= 971).
  { destruct H2 as [[_ ->]|[_ ->]]; [lia|].
    apply fexp_le; lia. }
  destruct (shr_m r2); try discriminate.
  replace (e2 <=? emax - prec) with true; [discriminate|].
  symmetry. apply Z.leb_le. unfold emax, prec. lia.
Qed.

Lemma SFdiv_exact_int_no_overflow (a b : positive) (s : bool) :
  (a <= b)%positive ->
  SFdiv prec emax (exact_int (Zpos a)) (exact_int (Zpos b)) <> S754_infinity s.
Proof.
  intros Hab. cbn [exact_int SFdiv].
  unfold SFdiv_core_binary.
  set (e' := Z.min (fexp prec emax (Zdigits2 (Zpos a) + 0 - (Zdigits2 (Zpos b) + 0))) (0 - 0)).
  assert (Hda : Zdigits2 (Zpos a) <= Zdigits2 (Zpos b))
    by (apply Zdigits2_mono; lia).
  assert (He' : -1074 <= e' <= -53).
  { unfold e', fexp, emin, prec, emax. lia. }
  replace (0 - 0 - e') with (- e') by lia.
  destruct (- e') as [|sh|sh] eqn:Hsh; try lia.
  rewrite Z.shiftl_mul_pow2 by lia.
  pose proof (Z.div_eucl_eq (Zpos a * 2 ^ Zpos sh) (Zpos b)) as Heq.
  pose proof (Z.mod_pos_bound (Zpos a * 2 ^ Zpos sh) (Zpos b)) as Hmod.
  unfold Z.modulo in Hmod.
  destruct (Z.div_eucl (Zpos a * 2 ^ Zpos sh) (Zpos b)) as [q r].
  cbn [snd] in Hmod. specialize (Heq ltac:(lia)). specialize (Hmod ltac:(lia)).
  assert (Hpow : 0 < 2 ^ Zpos sh) by (apply Z.pow_pos_nonneg; lia).
  assert (Hq : 0 <= q <= 2 ^ Zpos sh) by nia.
  assert (Hdq : Zdigits2 q <= Zpos sh + 1) by (apply Zdigits2_le_pow2; lia).
  apply binary_round_aux_no_overflow; lia.
Qed.

(** [a / b] returns a float for [0 <= a <= b], [0 < b]. *)
Lemma truediv_total (a b : Z) :
  0 <= a <= b -> 0 < b -> exists q, truediv a b = Ok q.
Proof.
  intros Ha Hb. unfold truediv.
  replace (b =? 0) with false by (symmetry; apply Z.eqb_neq; lia).
  destruct b as [|pb|pb]; try lia.
  destruct a as [|pa|pa]; try lia.
  - eexists. reflexivity.
  - pose proof (fun s => SFdiv_exact_int_no_overflow pa pb s ltac:(lia)) as H.
    destruct (SFdiv prec emax (exact_int (Z.pos pa)) (exact_int (Z.pos pb)));
      try (eexists; reflexivity).
    exfalso. eapply H. reflexivity.
Qed.

Lemma truediv_zero_divisor (a : Z) : exists e, truediv a 0 = Raise e.
Proof. eexists. reflexivity. Qed.

(** ** The prompt builder *)

Lemma float_of_int_25 : float_of_int 25 = S754_finite false 7036874417766400 (-48).
Proof. vm_compute. reflexivity. Qed.

Lemma float_of_int_50 : float_of_int 50 = S754_finite false 7036874417766400 (-47).
Proof. vm_compute. reflexivity. Qed.

Lemma float_of_int_75 : float_of_int 75 = S754_finite false 5277655813324800 (-46).
Proof. vm_compute. reflexivity. Qed.

Lemma float_of_int_100 : float_of_int 100 = S754_finite false 7036874417766400 (-46).
Proof. vm_compute. reflexivity. Qed.

(** Below a positive float, below every positive float of a larger
    exponent. *)
Lemma SFltb_larger_exponent (x : float) (m1 m2 : positive) (e1 e2 : Z) :
  e1 < e2 ->
  SFltb x (S754_finite false m1 e1) = true ->
  SFltb x (S754_finite false m2 e2) = true.
Proof.
  intros He. unfold SFltb.
  destruct x as [s|s| |s m e]; cbn [SFcompare].
  - trivial.
  - destruct s; trivial.
  - trivial.
  - destruct s; [trivial|].
    destruct (e ?= e1) eqn:H1; try discriminate; intros _.
    + apply Z.compare_eq in H1. subst e.
      unfold Z.lt in He. rewrite He. reflexivity.
    + rewrite Z.compare_lt_iff in H1.
      replace (e ?= e2) with Lt; [reflexivity|].
      symmetry. apply Z.compare_lt_iff. lia.
Qed.

Lemma lt_int_25_50 (x : float) : lt_int x 25 = true -> lt_int x 50 = true.
Proof.
  unfold lt_int. rewrite float_of_int_25, float_of_int_50.
  apply SFltb_larger_exponent. lia.
Qed.

Lemma lt_int_50_75 (x : float) : lt_int x 50 = true -> lt_int x 75 = true.
Proof.
  unfold lt_int. rewrite float_of_int_50, float_of_int_75.
  apply SFltb_larger_exponent. lia.
Qed.

Ltac bucket_clash :=
  repeat match goal with
         | H : _ /\ _ |- _ => destruct H
         end;
  congruence.

(** Every float lies in exactly one bucket, and [phase_tone] answers with
    the labels of that bucket. *)
Lemma phase_tone_bucket (x : float) :
  exists b,
    in_bucket x b /\
    (forall b', in_bucket x b' -> b' = b) /\
    phase_tone x = labels b.
Proof.
  unfold phase_tone.
  destruct (lt_int x 25) eqn:H25; [|destruct (lt_int x 50) eqn:H50;
    [|destruct (lt_int x 75) eqn:H75]].
  - pose proof (lt_int_25_50 x H25) as H50.
    pose proof (lt_int_50_75 x H50) as H75.
    exists Beginning. repeat split; trivial.
    intros [] H; cbn [in_bucket] in H; trivial; bucket_clash.
  - pose proof (lt_int_50_75 x H50) as H75.
    exists EarlyProgress. repeat split; trivial.
    intros [] H; cbn [in_bucket] in H; trivial; bucket_clash.
  - exists MiddleJourney. repeat split; trivial.
    intros [] H; cbn [in_bucket] in H; trivial; bucket_clash.
  - exists FinalSprint. repeat split; trivial.
    intros [] H; cbn [in_bucket] in H; trivial; bucket_clash.
Qed.

(** The prompt builder evaluates one division and nothing else. *)
Lemma generate_motivational_prompt_events (days_left total_target : Z) :
  snd (generate_motivational_prompt days_left total_target)
  = [Divided (total_target - days_left) total_target].
Proof.
  unfold generate_motivational_prompt, divide, bind, emit, lift.
  destruct (truediv (total_target - days_left) total_target) as [q|e];
    [|reflexivity].
  destruct (phase_tone (mul_int q 100)). reflexivity.
Qed.

Lemma generate_motivational_prompt_ok (days_left total_target : Z) (q : float) :
  truediv (total_target - days_left) total_target = Ok q ->
  generate_motivational_prompt days_left total_target
  = (Ok {| p_days_completed := total_target - days_left;
           p_total_target := total_target;
           p_days_left := days_left;
           p_progress := mul_int q 100;
           p_phase := fst (phase_tone (mul_int q 100));
           p_tone := snd (phase_tone (mul_int q 100)) |},
     [Divided (total_target - days_left) total_target]).
Proof.
  intros Hq.
  unfold generate_motivational_prompt, divide, bind, emit, lift.
  rewrite Hq. destruct (phase_tone (mul_int q 100)). reflexivity.
Qed.

(** Claim C4.  For every valid input ([0 <= days_left <= total_target],
    [0 < total_target]) the prompt builder returns, and the phase and tone
    it puts in the prompt are those of the one bucket among beginning
    ([< 25]), early progress ([< 50]), middle journey ([< 75]) and final
    sprint (otherwise) that holds the progress percentage; the bounds are
    strict, so 25, 50 and 75 themselves belong to the bucket above. *)
Theorem C4_phase_is_total_function_of_progress (days_left total_target : Z) :
  0 <= days_left -> 0 < total_target -> days_left <= total_target ->
  exists q p b,
    truediv (total_target - days_left) total_target = Ok q /\
    generate_motivational_prompt days_left total_target
    = (Ok p, [Divided (total_target - days_left) total_target]) /\
    p_progress p = mul_int q 100 /\
    in_bucket (p_progress p) b /\
    (forall b', in_bucket (p_progress p) b' -> b' = b) /\
    (p_phase p, p_tone p) = labels b /\
    phase_tone (p_progress p) = labels b /\
    in_bucket (float_of_int 25) EarlyProgress /\
    in_bucket (float_of_int 50) MiddleJourney /\
    in_bucket (float_of_int 75) FinalSprint.
Proof.
  intros Hd Ht Hdt.
  destruct (truediv_total (total_target - days_left) total_target) as [q Hq];
    [lia | lia |].
  destruct (phase_tone_bucket (mul_int q 100)) as (b & Hin & Huniq & Hlab).
  exists q. eexists. exists b.
  split; [exact Hq|].
  split; [apply generate_motivational_prompt_ok; exact Hq|].
  cbn [p_progress p_phase p_tone].
  split; [reflexivity|].
  split; [exact Hin|].
  split; [exact Huniq|].
  split; [rewrite <- Hlab; symmetry; apply surjective_pairing|].
  split; [exact Hlab|].
  repeat split; vm_compute; reflexivity.
Qed.

Lemma C4_witness :
  exists q p b,
    truediv (100 - 60) 100 = Ok q /\
    generate_motivational_prompt 60 100 = (Ok p, [Divided (100 - 60) 100]) /\
    p_progress p = mul_int q 100 /\
    in_bucket (p_progress p) b /\
    (forall b', in_bucket (p_progress p) b' -> b' = b) /\
    (p_phase p, p_tone p) = labels b /\
    phase_tone (p_progress p) = labels b /\
    in_bucket (float_of_int 25) EarlyProgress /\
    in_bucket (float_of_int 50) MiddleJourney /\
    in_bucket (float_of_int 75) FinalSprint.
Proof.
  apply (C4_phase_is_total_function_of_progress 60 100); lia.
Defined.

(** Claim C3, as the code has it.  With no day left of a hundred the
    progress is 100 per cent and the phase is the final sprint. *)
Theorem C3_no_days_left_is_final_sprint :
  exists p,
    generate_motivational_prompt 0 100 = (Ok p, [Divided 100 100]) /\
    p_days_completed p = 100 /\
    p_progress p = float_of_int 100 /\
    p_phase p = py "final sprint" /\
    p_tone p = py "determined and finish-strong".
Proof.
  eexists. split; [vm_compute; reflexivity|].
  repeat split; vm_compute; reflexivity.
Qed.

(** The phase for [days_left = 0], [total_target = 100] is not
    "beginning". *)
Lemma C3_counterexample :
  ~ (exists p,
       fst (generate_motivational_prompt 0 100) = Ok p /\
       p_phase p = py "beginning").
Proof.
  intros (p & Hp & Hphase).
  vm_compute in Hp. injection Hp as <-.
  vm_compute in Hphase. discriminate.
Qed.

(** ** The completion client *)

Lemma scan_lines_first (pre post : list str) (line quote : str) :
  Forall (fun l => has_keyword l = false) pre ->
  has_keyword line = true ->
  scan_lines (pre ++ line :: post) quote
  = strip (last_piece (split_max (py ":") 1 line)).
Proof.
  intros Hpre Hline.
  induction Hpre as [|l pre Hl _ IH]; simpl.
  - rewrite Hline. reflexivity.
  - rewrite Hl. exact IH.
Qed.

Lemma scan_lines_none (lines : list str) (quote : str) :
  Forall (fun l => has_keyword l = false) lines ->
  scan_lines lines quote = quote.
Proof.
  induction 1 as [|l lines Hl _ IH]; simpl; [reflexivity|].
  rewrite Hl. exact IH.
Qed.

Lemma truthy_false (s : str) : truthy s = false <-> s = [].
Proof. destruct s; simpl; split; congruence. Qed.

Lemma truthy_true (s : str) : truthy s = true <-> s <> [].
Proof. destruct s; simpl; split; congruence. Qed.

(** When [content] gives nothing and [reasoning] is a string, the text
    comes from the reasoning. *)
Lemma extract_from_reasoning (m : message) (r : str) :
  primary m = ret [] -> reasoning m = Some (Str r) ->
  extract m = ret (from_reasoning r []).
Proof.
  intros Hp Hr. unfold extract. rewrite Hp, Hr. reflexivity.
Qed.

(** The text taken from a line with a keyword, when there is text after
    its first colon. *)
Lemma from_reasoning_marker (r : str) (pre post : list str) (line a b : str) :
  contains (py "quote") (lower r) = true ->
  split newline r = pre ++ line :: post ->
  Forall (fun l => has_keyword l = false) pre ->
  has_keyword line = true ->
  line = a ++ ":"%char :: b -> ~ In ":"%char a ->
  from_reasoning r []
  = if truthy (strip b) then strip b
    else let quote := strip (last_piece (split (py ". ") r)) in
         if endswith (py ".") quote then drop_last quote else quote.
Proof.
  intros Hq Hlines Hpre Hline Hab Hcolon.
  unfold from_reasoning. rewrite Hq, Hlines.
  rewrite (scan_lines_first pre post line [] Hpre Hline).
  rewrite Hab. change (py ":") with [":"%char].
  rewrite (after_first_char ":"%char a b Hcolon).
  destruct (truthy (strip b)); reflexivity.
Qed.

(** Without any line with a keyword the text is the last sentence. *)
Lemma from_reasoning_no_marker (r : str) :
  contains (py "quote") (lower r) = true ->
  Forall (fun l => has_keyword l = false) (split newline r) ->
  from_reasoning r []
  = let quote := strip (last_piece (split (py ". ") r)) in
    if endswith (py ".") quote then drop_last quote else quote.
Proof.
  intros Hq Hlines. unfold from_reasoning.
  rewrite Hq, (scan_lines_none _ [] Hlines). reflexivity.
Qed.

(** A reasoning that does not mention "quote" is not used. *)
Lemma from_reasoning_unused (r : str) :
  contains (py "quote") (lower r) = false -> from_reasoning r [] = [].
Proof.
  intros Hq. unfold from_reasoning. rewrite Hq. reflexivity.
Qed.

Lemma extract_silent (m : message) : snd (extract m) = [].
Proof.
  unfold extract, primary, receiver, bind, ret, raise.
  destruct (content m) as [[s|t]|]; cbn [snd app];
    destruct (reasoning m) as [[r|t']|]; try reflexivity;
    destruct (negb (truthy (strip _))); reflexivity.
Qed.

Lemma normalize_nonempty (m : message) (q : str) :
  extract m = ret q -> q <> [] ->
  normalize m = ret (Some (limit (unquote q)), None).
Proof.
  intros He Hq. unfold normalize. rewrite He.
  apply truthy_true in Hq. unfold bind, ret. rewrite Hq. reflexivity.
Qed.

Lemma normalize_empty (m : message) :
  extract m = ret [] ->
  normalize m = ret (None, Some (py "No quote generated in response")).
Proof.
  intros He. unfold normalize. rewrite He. reflexivity.
Qed.

Lemma normalize_raises (m : message) (e : str) :
  extract m = raise e -> normalize m = raise e.
Proof.
  intros He. unfold normalize. rewrite He. reflexivity.
Qed.

(** The client on an answer with status 200 whose message can be read:
    one division, one call, and the normalised message. *)
Lemma get_quote_from_llm_answered (w : world) (days_left total_target : Z)
    (resp : http_response) (m : message) (res : result) :
  0 <= days_left <= total_target -> 0 < total_target ->
  (forall p, requests_post w p = Ok resp) ->
  status_code resp = 200 -> first_message resp = Ok m ->
  normalize m = ret res ->
  exists p,
    get_quote_from_llm w days_left total_target
    = (Ok res, [Divided (total_target - days_left) total_target; Posted p]).
Proof.
  intros Hd Ht Hpost Hstatus Hmsg Hnorm.
  destruct (truediv_total (total_target - days_left) total_target) as [q Hq];
    [lia | lia |].
  eexists. unfold get_quote_from_llm.
  rewrite (generate_motivational_prompt_ok _ _ q Hq).
  unfold post, bind, emit, lift, try_except.
  rewrite Hpost, Hstatus, Hmsg, Hnorm. cbn. reflexivity.
Qed.

(** Claim C1, as the code has it.  When [content] gives the empty string,
    the reasoning contains "quote" (whatever the case) and has a line with
    one of the markers, the text extracted is what follows the first colon
    of the first such line, trimmed, provided that this is not empty.  For
    the example message the text is "Build boldly.", which is also what
    the client returns after trimming and removal of quote characters. *)
Theorem C1_marker_line_after_first_colon :
  (forall (m : message) (r : str) (pre post : list str) (line a b : str),
     primary m = ret [] ->
     reasoning m = Some (Str r) ->
     contains (py "quote") (lower r) = true ->
     split newline r = pre ++ line :: post ->
     Forall (fun l => has_keyword l = false) pre ->
     has_keyword line = true ->
     line = a ++ ":"%char :: b -> ~ In ":"%char a ->
     strip b <> [] ->
     extract m = ret (strip b))
  /\
  extract build_boldly = ret (py "Build boldly.")
  /\
  (forall (w : world) (days_left total_target : Z) (resp : http_response),
     0 <= days_left <= total_target -> 0 < total_target ->
     (forall p, requests_post w p = Ok resp) ->
     status_code resp = 200 -> first_message resp = Ok build_boldly ->
     fst (get_quote_from_llm w days_left total_target)
     = Ok (Some (py "Build boldly."), None)).
Proof.
  split; [|split].
  - intros m r pre post line a b Hp Hr Hq Hlines Hpre Hline Hab Hcolon Hb.
    rewrite (extract_from_reasoning m r Hp Hr).
    rewrite (from_reasoning_marker r pre post line a b Hq Hlines Hpre Hline Hab Hcolon).
    apply truthy_true in Hb. rewrite Hb. reflexivity.
  - vm_compute. reflexivity.
  - intros w days_left total_target resp Hd Ht Hpost Hstatus Hmsg.
    assert (Hn : normalize build_boldly = ret (Some (py "Build boldly."), None))
      by (vm_compute; reflexivity).
    destruct (get_quote_from_llm_answered w days_left total_target resp
                build_boldly _ Hd Ht Hpost Hstatus Hmsg Hn) as [p Hp].
    rewrite Hp. reflexivity.
Qed.

Lemma C1_witness :
  extract {| content := None;
             reasoning := Some (Str (py "About the quote. Answer: Ship it today")) |}
  = ret (strip (py " Ship it today")).
Proof.
  apply (proj1 C1_marker_line_after_first_colon
           {| content := None;
              reasoning := Some (Str (py "About the quote. Answer: Ship it today")) |}
           (py "About the quote. Answer: Ship it today") [] []
           (py "About the quote. Answer: Ship it today")
           (py "About the quote. Answer") (py " Ship it today")).
  - vm_compute. reflexivity.
  - vm_compute. reflexivity.
  - vm_compute. reflexivity.
  - vm_compute. reflexivity.
  - constructor.
  - vm_compute. reflexivity.
  - vm_compute. reflexivity.
  - vm_compute. intuition discriminate.
  - vm_compute. discriminate.
Defined.

(** The statement of C1 without the proviso fails: for the reasoning
    "quote:" nothing follows the colon, and the text extracted is
    "quote:" itself. *)
Lemma C1_counterexample :
  ~ (forall (m : message) (r : str) (pre post : list str) (line a b : str),
       primary m = ret [] ->
       reasoning m = Some (Str r) ->
       contains (py "quote") (lower r) = true ->
       split newline r = pre ++ line :: post ->
       Forall (fun l => has_keyword l = false) pre ->
       has_keyword line = true ->
       line = a ++ ":"%char :: b -> ~ In ":"%char a ->
       extract m = ret (strip b)).
Proof.
  intros H.
  specialize (H {| content := Some (Str []); reasoning := Some (Str (py "quote:")) |}
                (py "quote:") [] [] (py "quote:") (py "quote") []).
  assert (Hcode : extract {| content := Some (Str []);
                             reasoning := Some (Str (py "quote:")) |}
                  = ret (py "quote:")) by (vm_compute; reflexivity).
  rewrite Hcode in H.
  assert (Habs : ret (py "quote:") = ret (strip [])).
  { apply H; try (vm_compute; reflexivity).
    - constructor.
    - vm_compute. intuition discriminate. }
  vm_compute in Habs. discriminate.
Qed.

(** Claim C10.  When nothing but whitespace follows the first colon of the
    first line with a marker, the extraction goes on to the last
    sentence: the reasoning is split on ". ", the last piece (what
    follows the last ". ", or the whole reasoning when there is none) is
    trimmed and one final "." is dropped. *)
Theorem C10_empty_marker_line_falls_through
    (m : message) (r : str) (pre post : list str) (line a b : str) :
  primary m = ret [] ->
  reasoning m = Some (Str r) ->
  contains (py "quote") (lower r) = true ->
  split newline r = pre ++ line :: post ->
  Forall (fun l => has_keyword l = false) pre ->
  has_keyword line = true ->
  line = a ++ ":"%char :: b -> ~ In ":"%char a ->
  strip b = [] ->
  extract m
  = ret (let quote := strip (last_piece (split (py ". ") r)) in
         if endswith (py ".") quote then drop_last quote else quote)
  /\
  (forall s1 s2,
     r = s1 ++ py ". " ++ s2 -> contains (py ". ") s2 = false ->
     last_piece (split (py ". ") r) = s2)
  /\
  (contains (py ". ") r = false -> last_piece (split (py ". ") r) = r).
Proof.
  intros Hp Hr Hq Hlines Hpre Hline Hab Hcolon Hb.
  split; [|split].
  - rewrite (extract_from_reasoning m r Hp Hr).
    rewrite (from_reasoning_marker r pre post line a b Hq Hlines Hpre Hline Hab Hcolon).
    rewrite Hb. reflexivity.
  - intros s1 s2 -> Hs2. apply last_sentence_after. exact Hs2.
  - apply last_sentence_whole.
Qed.

Lemma C10_witness :
  extract {| content := Some (Str (py "  ")); reasoning := Some (Str marker_without_text) |}
  = ret (py "Keep shipping").
Proof.
  refine (proj1 (C10_empty_marker_line_falls_through
           {| content := Some (Str (py "  ")); reasoning := Some (Str marker_without_text) |}
           marker_without_text [] [py "So be it. Keep shipping."]
           (py "Here is my quote:  ") (py "Here is my quote") (py "  ")
           _ _ _ _ _ _ _ _ _)).
  - vm_compute. reflexivity.
  - vm_compute. reflexivity.
  - vm_compute. reflexivity.
  - vm_compute. reflexivity.
  - constructor.
  - vm_compute. reflexivity.
  - vm_compute. reflexivity.
  - vm_compute. intuition discriminate.
  - vm_compute. reflexivity.
Defined.

(** *** Removal of quote characters *)

Lemma dropWhile_ext (p p' : ascii -> bool) (s : str) :
  (forall c, p c = p' c) -> dropWhile p s = dropWhile p' s.
Proof.
  intros H. induction s as [|c s IH]; simpl; [reflexivity|].
  rewrite <- (H c), IH. reflexivity.
Qed.

Lemma strip_by_ext (p p' : ascii -> bool) (s : str) :
  (forall c, p c = p' c) -> strip_by p s = strip_by p' s.
Proof.
  intros H. unfold strip_by, rstrip_by, lstrip_by.
  rewrite (dropWhile_ext p p' s H), (dropWhile_ext p p' _ H). reflexivity.
Qed.

Lemma dropWhile_past (p : ascii -> bool) (pre s : str) :
  Forall (fun c => p c = true) pre -> dropWhile p (pre ++ s) = dropWhile p s.
Proof.
  induction 1 as [|c pre Hc _ IH]; simpl; [reflexivity|].
  rewrite Hc. exact IH.
Qed.

Lemma strip_by_stripped (p : ascii -> bool) (s : str) :
  stripped p s (strip_by p s).
Proof.
  destruct (strip_by_spec p s) as (pre & post & H).
  exists pre, post. exact H.
Qed.

(** What [stripped] describes is what [strip] computes. *)
Lemma stripped_unique (p : ascii -> bool) (s r : str) :
  stripped p s r -> r = strip_by p s.
Proof.
  intros (pre & post & -> & Hpre & Hpost & Hl & Hr).
  unfold strip_by, rstrip_by, lstrip_by.
  rewrite (dropWhile_past p pre _ Hpre).
  destruct r as [|c r'].
  - simpl. rewrite (dropWhile_all p post Hpost). reflexivity.
  - set (r := c :: r') in *.
    assert (Hfix : dropWhile p (r ++ post) = r ++ post).
    { unfold r. simpl. rewrite (Hl c r' eq_refl). reflexivity. }
    rewrite Hfix, rev_app_distr.
    rewrite (dropWhile_past p (rev post)) by (apply Forall_rev; exact Hpost).
    rewrite dropWhile_fixed; [symmetry; apply rev_involutive|].
    intros x s' Hx. apply (Hr x (rev s')).
    rewrite <- (rev_involutive r), Hx. reflexivity.
Qed.

Lemma strip_chars_one (q : ascii) (s : str) :
  strip_chars [q] s = strip_by (fun c => eqb_char c q) s.
Proof.
  unfold strip_chars. apply strip_by_ext.
  intros c. simpl. apply orb_false_r.
Qed.

Lemma unquote_unquoted (quote : str) : unquoted quote (unquote quote).
Proof.
  unfold unquote, strip. rewrite !strip_chars_one.
  eexists. eexists.
  split; [apply strip_by_stripped|].
  split; apply strip_by_stripped.
Qed.

Lemma unquoted_unique (quote u : str) : unquoted quote u -> u = unquote quote.
Proof.
  intros (a & b & Ha & Hb & Hu).
  apply stripped_unique in Ha, Hb, Hu. subst.
  unfold unquote, strip. rewrite !strip_chars_one. reflexivity.
Qed.

(** Claim C2, as the code has it.  A non-empty text that the extraction
    produced is post-processed by removing every leading and every
    trailing double quote (however many, paired or not), then every
    leading and trailing single quote of what is left, then the
    surrounding whitespace; quote characters elsewhere stay.  The text
    so obtained is the one the length limit is then applied to. *)
Theorem C2_quotes_removed_at_both_ends (m : message) (q : str) :
  extract m = ret q -> q <> [] ->
  normalize m = ret (Some (limit (unquote q)), None) /\
  unquoted q (unquote q) /\
  (forall u, unquoted q u -> u = unquote q).
Proof.
  intros He Hq.
  split; [apply normalize_nonempty; assumption|].
  split; [apply unquote_unquoted | apply unquoted_unique].
Qed.

Lemma C2_witness :
  normalize {| content := Some (Str doubly_quoted); reasoning := None |}
  = ret (Some (limit (unquote doubly_quoted)), None) /\
  unquoted doubly_quoted (unquote doubly_quoted) /\
  (forall u, unquoted doubly_quoted u -> u = unquote doubly_quoted).
Proof.
  apply (C2_quotes_removed_at_both_ends
           {| content := Some (Str doubly_quoted); reasoning := None |}
           doubly_quoted).
  - vm_compute. reflexivity.
  - vm_compute. discriminate.
Defined.

(** Removing one pair of double quotes would leave a pair around
    "Stay bold"; the code removes both pairs. *)
Lemma C2_counterexample :
  ~ (forall (m : message) (q : str),
       extract m = ret q -> q <> [] ->
       normalize m = ret (Some (limit (unquote_one_pair q)), None)).
Proof.
  intros H.
  specialize (H {| content := Some (Str doubly_quoted); reasoning := None |}
                doubly_quoted).
  assert (Hcode : normalize {| content := Some (Str doubly_quoted); reasoning := None |}
                  = ret (Some (py "Stay bold"), None)) by (vm_compute; reflexivity).
  rewrite Hcode in H.
  assert (Hspec : limit (unquote_one_pair doubly_quoted)
                  = [dquote] ++ py "Stay bold" ++ [dquote]) by (vm_compute; reflexivity).
  rewrite Hspec in H.
  assert (Habs : ret (Some (py "Stay bold"), @None str)
                 = ret (Some ([dquote] ++ py "Stay bold" ++ [dquote]), None)).
  { apply H; [vm_compute; reflexivity | vm_compute; discriminate]. }
  vm_compute in Habs. discriminate.
Qed.

(** *** The length limit *)

Lemma limit_long (u : str) :
  (200 < List.length u)%nat ->
  limit u = take 200 u ++ py "..." /\ List.length (limit u) = 203%nat.
Proof.
  intros Hlen. unfold limit.
  replace (200 <? List.length u)%nat with true
    by (symmetry; apply Nat.ltb_lt; exact Hlen).
  split; [reflexivity|].
  unfold take. rewrite length_app, firstn_length_le by lia. reflexivity.
Qed.

Lemma limit_short (u : str) : (List.length u <= 200)%nat -> limit u = u.
Proof.
  intros Hlen. unfold limit.
  replace (200 <? List.length u)%nat with false; [reflexivity|].
  symmetry. apply Nat.ltb_ge. exact Hlen.
Qed.

(** Claim C5.  When the upstream answers 200 with a message whose
    extracted text [q] is not empty, the client returns a quote [r] and no
    error; [r] is the post-processed text [u] cut to its first 200
    characters and followed by "..." (203 characters in all) when [u] has
    more than 200 characters, and [u] itself otherwise. *)
Theorem C5_quote_limited_to_200
    (w : world) (days_left total_target : Z) (resp : http_response)
    (m : message) (q : str) :
  0 <= days_left <= total_target -> 0 < total_target ->
  (forall p, requests_post w p = Ok resp) ->
  status_code resp = 200 -> first_message resp = Ok m ->
  extract m = ret q -> q <> [] ->
  exists r,
    fst (get_quote_from_llm w days_left total_target) = Ok (Some r, None) /\
    ((200 < List.length (unquote q))%nat ->
     r = take 200 (unquote q) ++ py "..." /\ List.length r = 203%nat) /\
    ((List.length (unquote q) <= 200)%nat -> r = unquote q).
Proof.
  intros Hd Ht Hpost Hstatus Hmsg He Hq.
  pose proof (normalize_nonempty m q He Hq) as Hn.
  destruct (get_quote_from_llm_answered w days_left total_target resp m _
              Hd Ht Hpost Hstatus Hmsg Hn) as [p Hp].
  exists (limit (unquote q)). rewrite Hp.
  split; [reflexivity|].
  split; [apply limit_long | apply limit_short].
Qed.

Lemma C5_witness :
  exists r,
    fst (get_quote_from_llm
           {| requests_post := fun _ =>
                Ok {| status_code := 200;
                      first_message :=
                        Ok {| content := Some (Str long_text); reasoning := None |} |};
              random_draw := 0 |}
           23 100)
    = Ok (Some r, None) /\
    ((200 < List.length (unquote long_text))%nat ->
     r = take 200 (unquote long_text) ++ py "..." /\ List.length r = 203%nat) /\
    ((List.length (unquote long_text) <= 200)%nat -> r = unquote long_text).
Proof.
  apply (C5_quote_limited_to_200
           {| requests_post := fun _ =>
                Ok {| status_code := 200;
                      first_message :=
                        Ok {| content := Some (Str long_text); reasoning := None |} |};
              random_draw := 0 |}
           23 100
           {| status_code := 200;
              first_message :=
                Ok {| content := Some (Str long_text); reasoning := None |} |}
           {| content := Some (Str long_text); reasoning := None |}
           long_text).
  - lia.
  - lia.
  - intros p. reflexivity.
  - reflexivity.
  - reflexivity.
  - vm_compute. reflexivity.
  - vm_compute. discriminate.
Defined.

(** The text of 250 characters comes back as 203 characters. *)
Lemma long_text_is_cut :
  fst (normalize {| content := Some (Str long_text); reasoning := None |})
  = Ok (Some (repeat "a"%char 200 ++ py "..."), None).
Proof. vm_compute. reflexivity. Qed.

(** ** The request handler *)

Lemma int_of_str_empty : int_of_str [] = None.
Proof. reflexivity. Qed.

Lemma param_some (key : str) (a : args) (z : Z) :
  param key a = Some (Some z) ->
  exists s, args_get key a = Some s /\ int_of_str s = Some z /\ truthy s = true.
Proof.
  unfold param. destruct (args_get key a) as [s|]; simpl; [|discriminate].
  intros H. injection H as H. exists s. repeat split; trivial.
  destruct s; [rewrite int_of_str_empty in H; discriminate | reflexivity].
Qed.

Lemma random_choice_fallback (w : world) :
  exists fq, random_choice w fallback_quotes = ret fq /\ In fq fallback_quotes.
Proof.
  unfold random_choice.
  assert (Hlt : (random_draw w mod List.length fallback_quotes
                 < List.length fallback_quotes)%nat)
    by (apply Nat.mod_upper_bound; discriminate).
  destruct (nth_error fallback_quotes
              (random_draw w mod List.length fallback_quotes)) as [fq|] eqn:Hn.
  - exists fq. split; [reflexivity|]. eapply nth_error_In. exact Hn.
  - apply nth_error_None in Hn. lia.
Qed.

(** The client never raises: for valid numbers it builds the prompt, sends
    one call and returns a pair. *)
Lemma get_quote_from_llm_returns (w : world) (days_left total_target : Z) :
  0 <= days_left <= total_target -> 0 < total_target ->
  exists res p,
    get_quote_from_llm w days_left total_target
    = (Ok res, [Divided (total_target - days_left) total_target; Posted p]).
Proof.
  intros Hd Ht.
  destruct (truediv_total (total_target - days_left) total_target) as [q Hq];
    [lia | lia |].
  unfold get_quote_from_llm.
  rewrite (generate_motivational_prompt_ok _ _ q Hq).
  unfold post, bind, emit, lift, try_except, ret.
  match goal with |- context [requests_post w ?p] => set (the_prompt := p) end.
  destruct (requests_post w the_prompt) as [resp|e];
    [|eexists; eexists; reflexivity].
  destruct (status_code resp =? 200); [|eexists; eexists; reflexivity].
  destruct (first_message resp) as [m|e]; [|eexists; eexists; reflexivity].
  unfold normalize, bind, ret.
  pose proof (extract_silent m) as Hsilent.
  destruct (extract m) as [[quote|e] t]; cbn [snd] in Hsilent; subst t;
    [destruct (truthy quote)|]; eexists; eexists; reflexivity.
Qed.

(** A request that is refused gets status 400, and nothing was done for
    it. *)
Lemma refused_response (w : world) (a : args) :
  refused a ->
  exists fields,
    get_motivational_quote w a = (Ok {| status := 400; body := fields |}, []).
Proof.
  unfold refused, param, get_motivational_quote.
  destruct (args_get (py "daysLeft") a) as [ds|];
    [|intros _; eexists; reflexivity].
  destruct (args_get (py "totalTarget") a) as [ts|];
    [|intros _; cbn [truthy_opt]; rewrite orb_true_r; eexists; reflexivity].
  cbn [truthy_opt option_map].
  destruct (negb (truthy ds) || negb (truthy ts)); [intros _; eexists; reflexivity|].
  destruct (int_of_str ds) as [dl|]; [|intros _; eexists; reflexivity].
  destruct (int_of_str ts) as [tt|]; [|intros _; eexists; reflexivity].
  intros [H|[H|[H|[H|[H|[H|H]]]]]]; try discriminate.
  - destruct H as (x & Hx & Hneg). injection Hx as <-.
    replace (dl <? 0) with true by (symmetry; apply Z.ltb_lt; lia).
    eexists; reflexivity.
  - destruct H as (x & Hx & Hneg). injection Hx as <-.
    replace (tt <=? 0) with true by (symmetry; apply Z.leb_le; lia).
    rewrite orb_true_r. eexists; reflexivity.
  - destruct H as (x & y & Hx & Hy & Hgt). injection Hx as <-. injection Hy as <-.
    destruct ((dl <? 0) || (tt <=? 0)); [eexists; reflexivity|].
    replace (dl >? tt) with true by (symmetry; apply Z.gtb_lt; lia).
    eexists; reflexivity.
Qed.

(** A request is refused or passes validation. *)
Lemma refused_or_validated (a : args) :
  refused a \/ exists days_left total_target, validated a days_left total_target.
Proof.
  unfold refused, validated.
  destruct (param (py "daysLeft") a) as [[dl|]|]; [| tauto | tauto].
  destruct (param (py "totalTarget") a) as [[tt|]|]; [| tauto | tauto].
  destruct (Z_lt_dec dl 0) as [Hd|Hd].
  { left. do 4 right. left. exists dl. split; trivial. }
  destruct (Z_le_dec tt 0) as [Ht|Ht].
  { left. do 5 right. left. exists tt. split; trivial. }
  destruct (Z_gt_dec dl tt) as [Hg|Hg].
  { left. do 6 right. exists dl, tt. repeat split; trivial. }
  right. exists dl, tt. repeat split; trivial; lia.
Qed.

Lemma validated_not_refused (a : args) (days_left total_target : Z) :
  validated a days_left total_target -> ~ refused a.
Proof.
  intros (Hd & Ht & H0 & H1 & H2) [H|[H|[H|[H|[H|[H|H]]]]]];
    rewrite ?Hd, ?Ht in H; try discriminate.
  - destruct H as (x & Hx & Hneg). injection Hx as <-. lia.
  - destruct H as (x & Hx & Hneg). injection Hx as <-. lia.
  - destruct H as (x & y & Hx & Hy & Hgt). injection Hx as <-. injection Hy as <-. lia.
Qed.

(** A request that passes validation: the client is called once, the
    progress is computed, and the answer has status 200; its body is the
    fallback body when the client reported an error with some text, and
    the success body otherwise. *)
Lemma validated_response (w : world) (a : args) (days_left total_target : Z) :
  validated a days_left total_target ->
  exists q quote error p fq,
    truediv (total_target - days_left) total_target = Ok q /\
    get_quote_from_llm w days_left total_target
    = (Ok (quote, error),
       [Divided (total_target - days_left) total_target; Posted p]) /\
    In fq fallback_quotes /\
    get_motivational_quote w a
    = (Ok (if truthy_opt error then
             {| status := 200;
                body := [(py "quote", JStr fq);
                         (py "daysLeft", JInt days_left);
                         (py "totalTarget", JInt total_target);
                         (py "progressPercentage", JFloat (round1 (mul_int q 100)));
                         (py "warning", JStr (py "Used fallback quote due to API issues"))] |}
           else
             {| status := 200;
                body := [(py "quote", json_of_opt quote);
                         (py "daysLeft", JInt days_left);
                         (py "totalTarget", JInt total_target);
                         (py "daysCompleted", JInt (total_target - days_left));
                         (py "progressPercentage", JFloat (round1 (mul_int q 100)))] |}),
       [Divided (total_target - days_left) total_target; Posted p;
        Divided (total_target - days_left) total_target]).
Proof.
  intros (Hd & Ht & H0 & H1 & H2).
  destruct (param_some _ _ _ Hd) as (ds & Hds & Hdi & Hdt).
  destruct (param_some _ _ _ Ht) as (ts & Hts & Hti & Htt).
  destruct (truediv_total (total_target - days_left) total_target) as [q Hq];
    [lia | lia |].
  destruct (get_quote_from_llm_returns w days_left total_target)
    as ([quote error] & p & Hres); [lia | lia |].
  destruct (random_choice_fallback w) as (fq & Hfq & Hin).
  exists q, quote, error, p, fq.
  split; [exact Hq|]. split; [exact Hres|]. split; [exact Hin|].
  unfold get_motivational_quote.
  rewrite Hds, Hts. cbn [truthy_opt option_map].
  rewrite Hdt, Htt, Hdi, Hti. cbn [negb orb].
  replace (days_left <? 0) with false by (symmetry; apply Z.ltb_ge; lia).
  replace (total_target <=? 0) with false by (symmetry; apply Z.leb_gt; lia).
  replace (days_left >? total_target) with false
    by (symmetry; rewrite Z.gtb_ltb; apply Z.ltb_ge; lia).
  cbn [orb]. rewrite Hres. unfold divide, bind, emit, lift, try_except.
  rewrite Hq, Hfq.
  destruct (truthy_opt error); reflexivity.
Qed.

(** Claim C6.  The handler answers 400 exactly when the request is
    refused: a parameter is missing, a parameter is not an integer,
    [days_left < 0], [total_target <= 0] or [days_left > total_target];
    and for a refused request nothing is recorded, in particular no call
    upstream. *)
Theorem C6_status_400_iff_refused (w : world) (a : args) :
  ((exists resp,
      fst (get_motivational_quote w a) = Ok resp /\ status resp = 400)
   <-> refused a) /\
  (refused a ->
   snd (get_motivational_quote w a) = [] /\
   forall p, ~ In (Posted p) (snd (get_motivational_quote w a))).
Proof.
  split; [split|].
  - intros (resp & Hresp & H400).
    destruct (refused_or_validated a) as [Hr|(dl & tt & Hv)]; [exact Hr|].
    exfalso.
    destruct (validated_response w a dl tt Hv)
      as (q & quote & error & p & fq & _ & _ & _ & Hrun).
    rewrite Hrun in Hresp. cbn [fst] in Hresp.
    injection Hresp as <-.
    destruct (truthy_opt error); cbn [status] in H400; discriminate.
  - intros Hr. destruct (refused_response w a Hr) as (fields & Hrun).
    rewrite Hrun. eexists. split; reflexivity.
  - intros Hr. destruct (refused_response w a Hr) as (fields & Hrun).
    rewrite Hrun. split; [reflexivity|]. intros p [].
Qed.

Lemma C6_witness :
  exists resp,
    fst (get_motivational_quote
           {| requests_post := fun _ => Raise (py "unreachable"); random_draw := 0 |}
           [(py "daysLeft", py "200"); (py "totalTarget", py "100")])
    = Ok resp /\ status resp = 400.
Proof.
  apply (proj2 (proj1 (C6_status_400_iff_refused
           {| requests_post := fun _ => Raise (py "unreachable"); random_draw := 0 |}
           [(py "daysLeft", py "200"); (py "totalTarget", py "100")]))).
  do 6 right. exists 200, 100.
  split; [vm_compute; reflexivity|].
  split; [vm_compute; reflexivity|lia].
Defined.

(** Claim C9.  Every division that the handler or the prompt builder
    evaluates has a positive divisor: a request whose [total_target] is
    zero or negative is answered 400 before anything is divided, and the
    handler always ends with status 200 or 400, never with the 500 that a
    division by zero would lead to. *)
Theorem C9_divisor_is_positive (w : world) (a : args) :
  (forall x d, In (Divided x d) (snd (get_motivational_quote w a)) -> 0 < d) /\
  (forall total_target,
     param (py "totalTarget") a = Some (Some total_target) ->
     total_target <= 0 ->
     exists fields,
       get_motivational_quote w a = (Ok {| status := 400; body := fields |}, [])) /\
  (exists resp,
     fst (get_motivational_quote w a) = Ok resp /\
     (status resp = 200 \/ status resp = 400)).
Proof.
  split; [|split].
  - intros x d Hin.
    destruct (refused_or_validated a) as [Hr|(dl & tt & Hv)].
    + destruct (refused_response w a Hr) as (fields & Hrun).
      rewrite Hrun in Hin. destruct Hin.
    + destruct (validated_response w a dl tt Hv)
        as (q & quote & error & p & fq & _ & _ & _ & Hrun).
      rewrite Hrun in Hin. cbn [snd] in Hin.
      destruct Hv as (_ & _ & _ & Hpos & _).
      destruct Hin as [H|[H|[H|[]]]]; try discriminate;
        injection H as _ <-; exact Hpos.
  - intros tt Ht Hle. apply refused_response.
    do 5 right. left. exists tt. split; assumption.
  - destruct (refused_or_validated a) as [Hr|(dl & tt & Hv)].
    + destruct (refused_response w a Hr) as (fields & Hrun).
      rewrite Hrun. eexists. split; [reflexivity|]. right. reflexivity.
    + destruct (validated_response w a dl tt Hv)
        as (q & quote & error & p & fq & _ & _ & _ & Hrun).
      rewrite Hrun. eexists. split; [reflexivity|].
      left. destruct (truthy_opt error); reflexivity.
Qed.

Lemma C9_witness :
  exists fields,
    get_motivational_quote
      {| requests_post := fun _ => Raise (py "unreachable"); random_draw := 0 |}
      [(py "daysLeft", py "0"); (py "totalTarget", py "0")]
    = (Ok {| status := 400; body := fields |}, []).
Proof.
  apply (proj1 (proj2 (C9_divisor_is_positive
           {| requests_post := fun _ => Raise (py "unreachable"); random_draw := 0 |}
           [(py "daysLeft", py "0"); (py "totalTarget", py "0")])) 0).
  - vm_compute. reflexivity.
  - lia.
Defined.

(** *** Rounding to one decimal *)

Lemma div_half_even_nearest (n d : Z) :
  0 < d -> 2 * Z.abs (div_half_even n d * d - n) <= d.
Proof.
  intros Hd. unfold div_half_even.
  pose proof (Z.div_mod n d ltac:(lia)) as Hdm.
  pose proof (Z.mod_pos_bound n d Hd) as Hr.
  destruct (2 * (n mod d) ?= d) eqn:Hc.
  - apply Z.compare_eq in Hc. destruct (Z.even (n / d)); nia.
  - rewrite Z.compare_lt_iff in Hc. nia.
  - rewrite Z.compare_gt_iff in Hc. nia.
Qed.


(** The two answers for 23 days left of 100: 77 days completed, 77.0 per
    cent. *)
Lemma answer_on_success :
  fst (get_motivational_quote
         {| requests_post := fun _ =>
              Ok {| status_code := 200; first_message := Ok build_boldly |};
            random_draw := 0 |}
         [(py "daysLeft", py "23"); (py "totalTarget", py "100")])
  = Ok {| status := 200;
          body := [(py "quote", JStr (py "Build boldly."));
                   (py "daysLeft", JInt 23);
                   (py "totalTarget", JInt 100);
                   (py "daysCompleted", JInt 77);
                   (py "progressPercentage", JFloat (float_of_int 77))] |}.
Proof. vm_compute. reflexivity. Qed.

Lemma answer_on_upstream_503 :
  fst (get_motivational_quote
         {| requests_post := fun _ =>
              Ok {| status_code := 503; first_message := Raise (py "not JSON") |};
            random_draw := 7 |}
         [(py "daysLeft", py "23"); (py "totalTarget", py "100")])
  = Ok {| status := 200;
          body := [(py "quote", JStr (nth 2 fallback_quotes []));
                   (py "daysLeft", JInt 23);
                   (py "totalTarget", JInt 100);
                   (py "progressPercentage", JFloat (float_of_int 77));
                   (py "warning", JStr (py "Used fallback quote due to API issues"))] |}.
Proof. vm_compute. reflexivity. Qed.

(** A [daysLeft] of "5" after the separator U+001C: [strip()] would
    remove the separator, [int] does not pass over it, and the request is
    refused as not a number, with nothing sent upstream. *)
Lemma answer_on_separator_padding (w : world) :
  strip (ascii_of_nat 28 :: py "5") = py "5" /\
  int_of_str (ascii_of_nat 28 :: py "5") = None /\
  refused separator_padded /\
  get_motivational_quote w separator_padded
  = (Ok {| status := 400;
           body := [(py "error",
                     JStr (py "daysLeft and totalTarget must be valid numbers"))] |},
     []).
Proof.
  split; [vm_compute; reflexivity|].
  split; [vm_compute; reflexivity|].
  split; [|reflexivity].
  right. right. left. vm_compute. reflexivity.
Qed.

(** *** Failures of the client *)

(** What the client reports for each way of failing. *)
Lemma client_reports_exception (w : world) (days_left total_target : Z) (e : str) :
  0 <= days_left <= total_target -> 0 < total_target ->
  (forall p, requests_post w p = Raise e) ->
  fst (get_quote_from_llm w days_left total_target) = Ok (None, Some e).
Proof.
  intros Hd Ht Hpost.
  destruct (truediv_total (total_target - days_left) total_target) as [q Hq];
    [lia | lia |].
  unfold get_quote_from_llm.
  rewrite (generate_motivational_prompt_ok _ _ q Hq).
  unfold post, bind, emit, lift, try_except, ret.
  rewrite Hpost. reflexivity.
Qed.

Lemma client_reports_status (w : world) (days_left total_target : Z)
    (resp : http_response) :
  0 <= days_left <= total_target -> 0 < total_target ->
  (forall p, requests_post w p = Ok resp) ->
  status_code resp <> 200 ->
  fst (get_quote_from_llm w days_left total_target)
  = Ok (None, Some (py "API Error: " ++ str_of_int (status_code resp))).
Proof.
  intros Hd Ht Hpost Hstatus.
  destruct (truediv_total (total_target - days_left) total_target) as [q Hq];
    [lia | lia |].
  unfold get_quote_from_llm.
  rewrite (generate_motivational_prompt_ok _ _ q Hq).
  unfold post, bind, emit, lift, try_except, ret.
  rewrite Hpost.
  replace (status_code resp =? 200) with false
    by (symmetry; apply Z.eqb_neq; exact Hstatus).
  reflexivity.
Qed.

Lemma client_reports_unreadable (w : world) (days_left total_target : Z)
    (resp : http_response) (e : str) :
  0 <= days_left <= total_target -> 0 < total_target ->
  (forall p, requests_post w p = Ok resp) ->
  status_code resp = 200 -> first_message resp = Raise e ->
  fst (get_quote_from_llm w days_left total_target) = Ok (None, Some e).
Proof.
  intros Hd Ht Hpost Hstatus Hmsg.
  destruct (truediv_total (total_target - days_left) total_target) as [q Hq];
    [lia | lia |].
  unfold get_quote_from_llm.
  rewrite (generate_motivational_prompt_ok _ _ q Hq).
  unfold post, bind, emit, lift, try_except, ret.
  rewrite Hpost, Hstatus, Hmsg. reflexivity.
Qed.

Lemma client_reports_empty (w : world) (days_left total_target : Z)
    (resp : http_response) (m : message) :
  0 <= days_left <= total_target -> 0 < total_target ->
  (forall p, requests_post w p = Ok resp) ->
  status_code resp = 200 -> first_message resp = Ok m ->
  extract m = ret [] ->
  fst (get_quote_from_llm w days_left total_target)
  = Ok (None, Some (py "No quote generated in response")).
Proof.
  intros Hd Ht Hpost Hstatus Hmsg He.
  destruct (get_quote_from_llm_answered w days_left total_target resp m _
              Hd Ht Hpost Hstatus Hmsg (normalize_empty m He)) as [p Hp].
  rewrite Hp. reflexivity.
Qed.

(** An error with some text leads to the fallback answer. *)
Lemma error_with_text_gets_fallback (w : world) (a : args)
    (days_left total_target : Z) (quote : option str) (e : str) :
  validated a days_left total_target ->
  fst (get_quote_from_llm w days_left total_target) = Ok (quote, Some e) ->
  e <> [] ->
  exists q fq,
    truediv (total_target - days_left) total_target = Ok q /\
    In fq fallback_quotes /\
    fst (get_motivational_quote w a)
    = Ok {| status := 200;
            body := [(py "quote", JStr fq);
                     (py "daysLeft", JInt days_left);
                     (py "totalTarget", JInt total_target);
                     (py "progressPercentage", JFloat (round1 (mul_int q 100)));
                     (py "warning", JStr (py "Used fallback quote due to API issues"))] |}.
Proof.
  intros Hv Hres He.
  destruct (validated_response w a days_left total_target Hv)
    as (q & quote' & error & p & fq & Hq & Hres' & Hin & Hrun).
  rewrite Hres' in Hres. cbn [fst] in Hres. injection Hres as -> ->.
  exists q, fq. split; [exact Hq|]. split; [exact Hin|].
  rewrite Hrun. cbn [truthy_opt].
  apply truthy_true in He. rewrite He. reflexivity.
Qed.

(** Claim C7 at a failure that carries no text.  When the call upstream
    raises an exception whose text is empty, the client reports the error
    [""], which the handler's test [if error] takes for no error: the
    answer is the success body with a null quote, without warning and
    without a fallback quote. *)
Theorem C7_failure_without_text_is_not_absorbed :
  fst (get_quote_from_llm
         {| requests_post := fun _ => Raise []; random_draw := 0 |} 23 100)
  = Ok (None, Some [])
  /\
  fst (get_motivational_quote
         {| requests_post := fun _ => Raise []; random_draw := 0 |}
         [(py "daysLeft", py "23"); (py "totalTarget", py "100")])
  = Ok {| status := 200;
          body := [(py "quote", JNull);
                   (py "daysLeft", JInt 23);
                   (py "totalTarget", JInt 100);
                   (py "daysCompleted", JInt 77);
                   (py "progressPercentage", JFloat (float_of_int 77))] |}.
Proof. split; vm_compute; reflexivity. Qed.

(** *** The percentage against exact arithmetic

    For every journey of at most a hundred days the tenths obtained in
    floating point are a nearest integer to the exact value of
    [1000 * days_completed / total_target]. *)
Lemma percentage_exact_to_tenth_up_to_100 : all_exact_to_tenth 100 = true.
Proof. vm_compute. reflexivity. Qed.

Lemma all_exact_to_tenth_spec (n : nat) (days_left total_target : Z) :
  all_exact_to_tenth n = true ->
  0 <= days_left <= total_target -> 0 < total_target <= Z.of_nat n ->
  exact_to_tenth days_left total_target = true.
Proof.
  intros H Hd Ht.
  unfold all_exact_to_tenth in H. rewrite forallb_forall in H.
  assert (Hin : forall z, 0 <= z <= Z.of_nat n -> In z (upto n)).
  { intros z Hz. unfold upto. apply in_map_iff.
    exists (Z.to_nat z). split; [lia|]. apply in_seq. lia. }
  specialize (H total_target (Hin total_target ltac:(lia))).
  apply orb_true_iff in H. destruct H as [H|H].
  - apply Z.eqb_eq in H. lia.
  - rewrite forallb_forall in H.
    specialize (H days_left (Hin days_left ltac:(lia))).
    apply orb_true_iff in H. destruct H as [H|H]; [|exact H].
    apply Z.ltb_lt in H. lia.
Qed.

Lemma exact_to_tenth_up_to_100 (days_left total_target : Z) :
  0 <= days_left <= total_target -> 0 < total_target <= 100 ->
  exact_to_tenth days_left total_target = true.
Proof.
  intros Hd Ht.
  apply (all_exact_to_tenth_spec 100 days_left total_target
           percentage_exact_to_tenth_up_to_100); lia.
Qed.

(** * Further properties *)

(** ** The client and the handler *)

(** The two shapes of what the client returns: an error text and no
    quote, or a quote, cut to the limit, and no error. *)
Lemma get_quote_from_llm_shape (w : world) (days_left total_target : Z) (q : float) :
  truediv (total_target - days_left) total_target = Ok q ->
  snd (get_quote_from_llm w days_left total_target)
  = [Divided (total_target - days_left) total_target;
     Posted (the_prompt days_left total_target q)] /\
  ((exists e, fst (get_quote_from_llm w days_left total_target) = Ok (None, Some e)) \/
   (exists x, x <> [] /\
      fst (get_quote_from_llm w days_left total_target)
      = Ok (Some (limit (unquote x)), None))).
Proof.
  intros Hq. unfold get_quote_from_llm.
  rewrite (generate_motivational_prompt_ok _ _ q Hq).
  fold (the_prompt days_left total_target q).
  unfold post, bind, emit, lift, try_except, ret.
  destruct (requests_post w (the_prompt days_left total_target q)) as [resp|e];
    [|split; [reflexivity | left; eexists; reflexivity]].
  destruct (status_code resp =? 200);
    [|split; [reflexivity | left; eexists; reflexivity]].
  destruct (first_message resp) as [m|e];
    [|split; [reflexivity | left; eexists; reflexivity]].
  unfold normalize, bind, ret.
  pose proof (extract_silent m) as Hsilent.
  destruct (extract m) as [[quote|e] t]; cbn [snd] in Hsilent; subst t.
  - destruct (truthy quote) eqn:Htr.
    + split; [reflexivity|]. right. exists quote.
      split; [apply truthy_true; exact Htr | reflexivity].
    + split; [reflexivity | left; eexists; reflexivity].
  - split; [reflexivity | left; eexists; reflexivity].
Qed.

Lemma limit_length (u : str) : (List.length (limit u) <= 203)%nat.
Proof.
  destruct (Nat.lt_ge_cases 200 (List.length u)) as [H|H].
  - rewrite (proj2 (limit_long u H)). apply Nat.le_refl.
  - rewrite (limit_short u H). lia.
Qed.

Lemma limit_edge_free (u : str) :
  edge_free isspace u -> edge_free isspace (limit u).
Proof.
  intros [Hl Hr].
  destruct (Nat.lt_ge_cases 200 (List.length u)) as [H|H];
    [|rewrite (limit_short u H); split; assumption].
  rewrite (proj1 (limit_long u H)). split.
  - intros c s' Hc. destruct u as [|x u]; [simpl in H; lia|].
    simpl in Hc. injection Hc as <- _. apply (Hl x u eq_refl).
  - intros c s' Hc.
    change (py "...") with (["."; "."]%char ++ ["."%char]) in Hc.
    rewrite !app_assoc in Hc. apply app_inj_tail in Hc.
    destruct Hc as [_ <-]. reflexivity.
Qed.

Lemma limit_idempotent (u : str) : limit (limit u) = limit u.
Proof.
  destruct (Nat.lt_ge_cases 200 (List.length u)) as [H|H].
  - destruct (limit_long u H) as [Heq Hlen].
    rewrite (proj1 (limit_long (limit u) ltac:(lia))).
    rewrite Heq at 1. unfold take.
    rewrite firstn_app.
    rewrite firstn_length_le by lia.
    rewrite Nat.sub_diag, firstn_O, app_nil_r.
    rewrite firstn_firstn, Nat.min_id. symmetry. exact Heq.
  - rewrite (limit_short u H). apply limit_short. exact H.
Qed.

Lemma unquote_edge_free (q : str) : edge_free isspace (unquote q).
Proof.
  unfold unquote, strip.
  destruct (strip_by_spec isspace (strip_chars [squote] (strip_chars [dquote] q)))
    as (pre & post & _ & _ & _ & H). exact H.
Qed.

(** The answer when the client reports no error. *)
Lemma no_error_gets_success (w : world) (a : args)
    (days_left total_target : Z) (quote : option str) :
  validated a days_left total_target ->
  fst (get_quote_from_llm w days_left total_target) = Ok (quote, None) ->
  exists q,
    truediv (total_target - days_left) total_target = Ok q /\
    fst (get_motivational_quote w a)
    = Ok {| status := 200;
            body := [(py "quote", json_of_opt quote);
                     (py "daysLeft", JInt days_left);
                     (py "totalTarget", JInt total_target);
                     (py "daysCompleted", JInt (total_target - days_left));
                     (py "progressPercentage", JFloat (round1 (mul_int q 100)))] |}.
Proof.
  intros Hv Hres.
  destruct (validated_response w a days_left total_target Hv)
    as (q & quote' & error & p & fq & Hq & Hres' & Hin & Hrun).
  rewrite Hres' in Hres. cbn [fst] in Hres. injection Hres as -> ->.
  exists q. split; [exact Hq|]. rewrite Hrun. reflexivity.
Qed.

(** X1.  A request that passes validation sends exactly one call
    upstream, whatever the upstream answers and whether or not the answer
    is usable; the prompt of that call carries the two numbers of the
    request, their difference and the phase and tone of the progress.  The
    progress is computed twice, once for the prompt and once for the
    answer. *)
Theorem X1_one_call_per_valid_request
    (w : world) (a : args) (days_left total_target : Z) :
  validated a days_left total_target ->
  exists q,
    truediv (total_target - days_left) total_target = Ok q /\
    snd (get_motivational_quote w a)
    = [Divided (total_target - days_left) total_target;
       Posted {| p_days_completed := total_target - days_left;
                 p_total_target := total_target;
                 p_days_left := days_left;
                 p_progress := mul_int q 100;
                 p_phase := fst (phase_tone (mul_int q 100));
                 p_tone := snd (phase_tone (mul_int q 100)) |};
       Divided (total_target - days_left) total_target].
Proof.
  intros Hv.
  destruct (validated_response w a days_left total_target Hv)
    as (q & quote & error & p & fq & Hq & Hres & _ & Hrun).
  exists q. split; [exact Hq|].
  destruct (get_quote_from_llm_shape w days_left total_target q Hq) as [Hev _].
  rewrite Hres in Hev. cbn [snd] in Hev.
  injection Hev as ->. rewrite Hrun. reflexivity.
Qed.

Lemma X1_witness :
  exists q,
    truediv (100 - 23) 100 = Ok q /\
    snd (get_motivational_quote
           {| requests_post := fun _ => Raise (py "timed out"); random_draw := 3 |}
           [(py "daysLeft", py "23"); (py "totalTarget", py "100")])
    = [Divided (100 - 23) 100;
       Posted {| p_days_completed := 100 - 23;
                 p_total_target := 100;
                 p_days_left := 23;
                 p_progress := mul_int q 100;
                 p_phase := fst (phase_tone (mul_int q 100));
                 p_tone := snd (phase_tone (mul_int q 100)) |};
       Divided (100 - 23) 100].
Proof.
  apply (X1_one_call_per_valid_request
           {| requests_post := fun _ => Raise (py "timed out"); random_draw := 3 |}
           [(py "daysLeft", py "23"); (py "totalTarget", py "100")] 23 100).
  unfold validated.
  split; [vm_compute; reflexivity|].
  split; [vm_compute; reflexivity|]. lia.
Defined.

(** X2.  For valid numbers the client returns either an error text and
    no quote, or a quote and no error; a quote has at most 203 characters
    and no whitespace at either end. *)
Theorem X2_quote_or_error (w : world) (days_left total_target : Z) :
  0 <= days_left <= total_target -> 0 < total_target ->
  (exists e,
     fst (get_quote_from_llm w days_left total_target) = Ok (None, Some e)) \/
  (exists r,
     fst (get_quote_from_llm w days_left total_target) = Ok (Some r, None) /\
     (List.length r <= 203)%nat /\
     edge_free isspace r).
Proof.
  intros Hd Ht.
  destruct (truediv_total (total_target - days_left) total_target) as [q Hq];
    [lia | lia |].
  destruct (get_quote_from_llm_shape w days_left total_target q Hq)
    as [_ [He|(x & Hx & Hr)]]; [left; exact He|].
  right. exists (limit (unquote x)).
  split; [exact Hr|].
  split; [apply limit_length | apply limit_edge_free, unquote_edge_free].
Qed.

Lemma X2_witness :
  (exists e,
     fst (get_quote_from_llm
            {| requests_post := fun _ =>
                 Ok {| status_code := 200; first_message := Ok build_boldly |};
               random_draw := 0 |} 23 100) = Ok (None, Some e)) \/
  (exists r,
     fst (get_quote_from_llm
            {| requests_post := fun _ =>
                 Ok {| status_code := 200; first_message := Ok build_boldly |};
               random_draw := 0 |} 23 100) = Ok (Some r, None) /\
     (List.length r <= 203)%nat /\
     edge_free isspace r).
Proof.
  apply (X2_quote_or_error
           {| requests_post := fun _ =>
                Ok {| status_code := 200; first_message := Ok build_boldly |};
              random_draw := 0 |} 23 100); lia.
Defined.

Lemma strip_by_all (p : ascii -> bool) (s : str) :
  Forall (fun c => p c = true) s -> strip_by p s = [].
Proof.
  intros H. unfold strip_by, rstrip_by, lstrip_by.
  rewrite (dropWhile_all p s H). reflexivity.
Qed.

Lemma strip_by_none (p : ascii -> bool) (s : str) :
  Forall (fun c => p c = false) s -> strip_by p s = s.
Proof.
  intros H. apply strip_by_edge_free. split; intros c s' ->.
  - inversion H. assumption.
  - apply Forall_app in H. destruct H as [_ H]. inversion H. assumption.
Qed.

(** A text made of double quotes only, or of single quotes only, is
    nothing once the quotes are removed. *)
Lemma unquote_only_quotes (q : str) :
  Forall (fun c => c = dquote) q \/ Forall (fun c => c = squote) q ->
  unquote q = [].
Proof.
  unfold unquote. rewrite !strip_chars_one. intros [H|H].
  - rewrite (strip_by_all _ q); [reflexivity|].
    eapply Forall_impl; [|exact H]. intros c ->. reflexivity.
  - rewrite (strip_by_none (fun c => eqb_char c dquote) q).
    + rewrite (strip_by_all _ q); [reflexivity|].
      eapply Forall_impl; [|exact H]. intros c ->. reflexivity.
    + eapply Forall_impl; [|exact H]. intros c ->. reflexivity.
Qed.

(** X3.  The test for an empty text comes before the removal of quote
    characters: when the text extracted is not empty but is made of
    double quotes only (or of single quotes only), the client returns the
    empty quote with no error, and the handler answers 200 with that empty
    quote, without warning and without a fallback quote. *)
Theorem X3_empty_quote_without_error
    (w : world) (a : args) (days_left total_target : Z)
    (resp : http_response) (m : message) (x : str) :
  validated a days_left total_target ->
  (forall p, requests_post w p = Ok resp) ->
  status_code resp = 200 -> first_message resp = Ok m ->
  extract m = ret x -> x <> [] ->
  Forall (fun c => c = dquote) x \/ Forall (fun c => c = squote) x ->
  fst (get_quote_from_llm w days_left total_target) = Ok (Some [], None) /\
  exists q,
    truediv (total_target - days_left) total_target = Ok q /\
    fst (get_motivational_quote w a)
    = Ok {| status := 200;
            body := [(py "quote", JStr []);
                     (py "daysLeft", JInt days_left);
                     (py "totalTarget", JInt total_target);
                     (py "daysCompleted", JInt (total_target - days_left));
                     (py "progressPercentage", JFloat (round1 (mul_int q 100)))] |}.
Proof.
  intros Hv Hpost Hstatus Hmsg He Hx Hquotes.
  pose proof Hv as (_ & _ & H0 & H1 & H2).
  pose proof (normalize_nonempty m x He Hx) as Hn.
  rewrite (unquote_only_quotes x Hquotes) in Hn.
  change (limit []) with (@nil ascii) in Hn.
  destruct (get_quote_from_llm_answered w days_left total_target resp m _
              ltac:(lia) H1 Hpost Hstatus Hmsg Hn) as [p Hp].
  assert (Hres : fst (get_quote_from_llm w days_left total_target)
                 = Ok (Some [], None)) by (rewrite Hp; reflexivity).
  split; [exact Hres|].
  apply (no_error_gets_success w a days_left total_target (Some []) Hv Hres).
Qed.

Lemma X3_witness :
  fst (get_quote_from_llm
         {| requests_post := fun _ =>
              Ok {| status_code := 200;
                    first_message :=
                      Ok {| content := Some (Str [dquote; dquote]); reasoning := None |} |};
            random_draw := 0 |} 23 100) = Ok (Some [], None) /\
  exists q,
    truediv (100 - 23) 100 = Ok q /\
    fst (get_motivational_quote
           {| requests_post := fun _ =>
                Ok {| status_code := 200;
                      first_message :=
                        Ok {| content := Some (Str [dquote; dquote]); reasoning := None |} |};
              random_draw := 0 |}
           [(py "daysLeft", py "23"); (py "totalTarget", py "100")])
    = Ok {| status := 200;
            body := [(py "quote", JStr []);
                     (py "daysLeft", JInt 23);
                     (py "totalTarget", JInt 100);
                     (py "daysCompleted", JInt (100 - 23));
                     (py "progressPercentage", JFloat (round1 (mul_int q 100)))] |}.
Proof.
  apply (X3_empty_quote_without_error
           {| requests_post := fun _ =>
                Ok {| status_code := 200;
                      first_message :=
                        Ok {| content := Some (Str [dquote; dquote]); reasoning := None |} |};
              random_draw := 0 |}
           [(py "daysLeft", py "23"); (py "totalTarget", py "100")] 23 100
           {| status_code := 200;
              first_message :=
                Ok {| content := Some (Str [dquote; dquote]); reasoning := None |} |}
           {| content := Some (Str [dquote; dquote]); reasoning := None |}
           [dquote; dquote]).
  - unfold validated.
    split; [vm_compute; reflexivity|].
    split; [vm_compute; reflexivity|]. lia.
  - intros p. reflexivity.
  - reflexivity.
  - reflexivity.
  - vm_compute. reflexivity.
  - discriminate.
  - left. repeat constructor.
Defined.

(** X4.  The body of a 400 answer names the first check that failed, in
    this order: a parameter missing or empty (the only body with a
    usage hint), a parameter that is not an integer, a negative
    [daysLeft] or a [totalTarget] that is not positive (also when
    [daysLeft] exceeds it), and last a [daysLeft] above [totalTarget]. *)
Theorem X4_refusal_messages (w : world) (a : args) :
  (truthy_opt (args_get (py "daysLeft") a) = false \/
   truthy_opt (args_get (py "totalTarget") a) = false ->
   get_motivational_quote w a
   = (Ok {| status := 400;
            body := [(py "error",
                      JStr (py "Both daysLeft and totalTarget parameters are required"));
                     (py "usage",
                      JStr (py "/quote?daysLeft=<number>&totalTarget=<number>"))] |},
      []))
  /\
  (forall ds ts,
     args_get (py "daysLeft") a = Some ds ->
     args_get (py "totalTarget") a = Some ts ->
     ds <> [] -> ts <> [] ->
     int_of_str ds = None \/ int_of_str ts = None ->
     get_motivational_quote w a
     = (Ok {| status := 400;
              body := [(py "error",
                        JStr (py "daysLeft and totalTarget must be valid numbers"))] |},
        []))
  /\
  (forall days_left total_target,
     param (py "daysLeft") a = Some (Some days_left) ->
     param (py "totalTarget") a = Some (Some total_target) ->
     days_left < 0 \/ total_target <= 0 ->
     get_motivational_quote w a
     = (Ok {| status := 400;
              body := [(py "error",
                        JStr (py "daysLeft cannot be negative and totalTarget must be positive"))] |},
        []))
  /\
  (forall days_left total_target,
     param (py "daysLeft") a = Some (Some days_left) ->
     param (py "totalTarget") a = Some (Some total_target) ->
     0 <= days_left -> 0 < total_target -> days_left > total_target ->
     get_motivational_quote w a
     = (Ok {| status := 400;
              body := [(py "error",
                        JStr (py "daysLeft cannot be greater than totalTarget"))] |},
        [])).
Proof.
  split; [|split; [|split]].
  - intros H. unfold get_motivational_quote.
    replace (negb (truthy_opt (args_get (py "daysLeft") a))
             || negb (truthy_opt (args_get (py "totalTarget") a))) with true;
      [reflexivity|].
    symmetry. apply orb_true_iff.
    destruct H as [H|H]; rewrite H; [left | right]; reflexivity.
  - intros ds ts Hds Hts Hd Ht Hint. unfold get_motivational_quote.
    rewrite Hds, Hts. cbn [truthy_opt option_map].
    apply truthy_true in Hd, Ht. rewrite Hd, Ht. cbn [negb orb].
    destruct Hint as [H|H]; rewrite H; [reflexivity|].
    destruct (int_of_str ds); reflexivity.
  - intros dl tt Hd Ht Hrange.
    destruct (param_some _ _ _ Hd) as (ds & Hds & Hdi & Hdt).
    destruct (param_some _ _ _ Ht) as (ts & Hts & Hti & Htt).
    unfold get_motivational_quote.
    rewrite Hds, Hts. cbn [truthy_opt option_map].
    rewrite Hdt, Htt, Hdi, Hti. cbn [negb orb].
    replace ((dl <? 0) || (tt <=? 0)) with true; [reflexivity|].
    symmetry. apply orb_true_iff.
    destruct Hrange; [left; apply Z.ltb_lt | right; apply Z.leb_le]; assumption.
  - intros dl tt Hd Ht H0 H1 Hgt.
    destruct (param_some _ _ _ Hd) as (ds & Hds & Hdi & Hdt).
    destruct (param_some _ _ _ Ht) as (ts & Hts & Hti & Htt).
    unfold get_motivational_quote.
    rewrite Hds, Hts. cbn [truthy_opt option_map].
    rewrite Hdt, Htt, Hdi, Hti. cbn [negb orb].
    replace (dl <? 0) with false by (symmetry; apply Z.ltb_ge; lia).
    replace (tt <=? 0) with false by (symmetry; apply Z.leb_gt; lia).
    replace (dl >? tt) with true by (symmetry; apply Z.gtb_lt; lia).
    reflexivity.
Qed.

Lemma X4_witness :
  get_motivational_quote
    {| requests_post := fun _ => Raise (py "unreachable"); random_draw := 0 |}
    [(py "daysLeft", py "5"); (py "totalTarget", py "-1")]
  = (Ok {| status := 400;
           body := [(py "error",
                     JStr (py "daysLeft cannot be negative and totalTarget must be positive"))] |},
     []).
Proof.
  apply (proj1 (proj2 (proj2 (X4_refusal_messages
           {| requests_post := fun _ => Raise (py "unreachable"); random_draw := 0 |}
           [(py "daysLeft", py "5"); (py "totalTarget", py "-1")]))) 5 (-1)).
  - vm_compute. reflexivity.
  - vm_compute. reflexivity.
  - right. lia.
Defined.

(** X5.  A [content] with some text besides whitespace is the text
    extracted, whatever the message has under [reasoning]: a reasoning of
    any type, even one that is not a string, is not looked at. *)
Theorem X5_content_comes_first (m : message) (c : str) :
  content m = Some (Str c) -> strip c <> [] ->
  extract m = ret (strip c) /\
  normalize m = ret (Some (limit (unquote (strip c))), None).
Proof.
  intros Hc Hne.
  assert (He : extract m = ret (strip c)).
  { unfold extract, primary. rewrite Hc. cbn [receiver].
    unfold bind, ret. apply truthy_true in Hne.
    destruct (reasoning m) as [v|]; [rewrite Hne|]; reflexivity. }
  split; [exact He | apply normalize_nonempty; assumption].
Qed.

Lemma X5_witness :
  extract {| content := Some (Str (py " Ship it. ")); reasoning := Some (NonStr TList) |}
  = ret (strip (py " Ship it. ")) /\
  normalize {| content := Some (Str (py " Ship it. ")); reasoning := Some (NonStr TList) |}
  = ret (Some (limit (unquote (strip (py " Ship it. ")))), None).
Proof.
  apply (X5_content_comes_first
           {| content := Some (Str (py " Ship it. ")); reasoning := Some (NonStr TList) |}
           (py " Ship it. ")).
  - reflexivity.
  - vm_compute. discriminate.
Defined.

(** X6.  When [content] gives nothing and the message has no reasoning,
    or a reasoning in which the word "quote" does not occur (even one with
    a line "Answer: ..."), the client reports "No quote generated in
    response" and the handler answers with a fallback quote. *)
Theorem X6_reasoning_without_the_word_quote
    (w : world) (a : args) (days_left total_target : Z)
    (resp : http_response) (m : message) :
  validated a days_left total_target ->
  (forall p, requests_post w p = Ok resp) ->
  status_code resp = 200 -> first_message resp = Ok m ->
  primary m = ret [] ->
  reasoning m = None \/
  (exists r, reasoning m = Some (Str r) /\ contains (py "quote") (lower r) = false) ->
  fst (get_quote_from_llm w days_left total_target)
  = Ok (None, Some (py "No quote generated in response")) /\
  exists q fq,
    truediv (total_target - days_left) total_target = Ok q /\
    In fq fallback_quotes /\
    fst (get_motivational_quote w a)
    = Ok (fallback_answer days_left total_target q fq).
Proof.
  intros Hv Hpost Hstatus Hmsg Hp Hr.
  pose proof Hv as (_ & _ & H0 & H1 & H2).
  assert (He : extract m = ret []).
  { destruct Hr as [Hr|(r & Hr & Hq)].
    - unfold extract. rewrite Hp, Hr. reflexivity.
    - rewrite (extract_from_reasoning m r Hp Hr), (from_reasoning_unused r Hq).
      reflexivity. }
  assert (Hres : fst (get_quote_from_llm w days_left total_target)
                 = Ok (None, Some (py "No quote generated in response"))).
  { apply (client_reports_empty w days_left total_target resp m); trivial. lia. }
  split; [exact Hres|].
  apply (error_with_text_gets_fallback w a days_left total_target None _ Hv Hres).
  discriminate.
Qed.

Lemma X6_witness :
  fst (get_quote_from_llm
         {| requests_post := fun _ =>
              Ok {| status_code := 200;
                    first_message :=
                      Ok {| content := Some (Str []);
                            reasoning := Some (Str (py "Answer: Ship it today")) |} |};
            random_draw := 0 |} 23 100)
  = Ok (None, Some (py "No quote generated in response")) /\
  exists q fq,
    truediv (100 - 23) 100 = Ok q /\
    In fq fallback_quotes /\
    fst (get_motivational_quote
           {| requests_post := fun _ =>
                Ok {| status_code := 200;
                      first_message :=
                        Ok {| content := Some (Str []);
                              reasoning := Some (Str (py "Answer: Ship it today")) |} |};
              random_draw := 0 |}
           [(py "daysLeft", py "23"); (py "totalTarget", py "100")])
    = Ok (fallback_answer 23 100 q fq).
Proof.
  apply (X6_reasoning_without_the_word_quote
           {| requests_post := fun _ =>
                Ok {| status_code := 200;
                      first_message :=
                        Ok {| content := Some (Str []);
                              reasoning := Some (Str (py "Answer: Ship it today")) |} |};
              random_draw := 0 |}
           [(py "daysLeft", py "23"); (py "totalTarget", py "100")] 23 100
           {| status_code := 200;
              first_message :=
                Ok {| content := Some (Str []);
                      reasoning := Some (Str (py "Answer: Ship it today")) |} |}
           {| content := Some (Str []);
              reasoning := Some (Str (py "Answer: Ship it today")) |}).
  - unfold validated.
    split; [vm_compute; reflexivity|].
    split; [vm_compute; reflexivity|]. lia.
  - intros p. reflexivity.
  - reflexivity.
  - reflexivity.
  - vm_compute. reflexivity.
  - right. eexists. split; [reflexivity | vm_compute; reflexivity].
Defined.

(** X7.  Only the status 200 is a success: for any other status, another
    2xx included, the body is not read, the client reports
    "API Error: <status>" and the handler answers with a fallback
    quote. *)
Theorem X7_status_other_than_200
    (w : world) (a : args) (days_left total_target : Z) (resp : http_response) :
  validated a days_left total_target ->
  (forall p, requests_post w p = Ok resp) ->
  status_code resp <> 200 ->
  fst (get_quote_from_llm w days_left total_target)
  = Ok (None, Some (py "API Error: " ++ str_of_int (status_code resp))) /\
  exists q fq,
    truediv (total_target - days_left) total_target = Ok q /\
    In fq fallback_quotes /\
    fst (get_motivational_quote w a)
    = Ok (fallback_answer days_left total_target q fq).
Proof.
  intros Hv Hpost Hstatus.
  pose proof Hv as (_ & _ & H0 & H1 & H2).
  assert (Hres : fst (get_quote_from_llm w days_left total_target)
                 = Ok (None, Some (py "API Error: " ++ str_of_int (status_code resp))))
    by (apply client_reports_status; trivial; lia).
  split; [exact Hres|].
  apply (error_with_text_gets_fallback w a days_left total_target None _ Hv Hres).
  discriminate.
Qed.

Lemma X7_witness :
  fst (get_quote_from_llm
         {| requests_post := fun _ =>
              Ok {| status_code := 201; first_message := Ok build_boldly |};
            random_draw := 0 |} 23 100)
  = Ok (None, Some (py "API Error: " ++ str_of_int 201)) /\
  exists q fq,
    truediv (100 - 23) 100 = Ok q /\
    In fq fallback_quotes /\
    fst (get_motivational_quote
           {| requests_post := fun _ =>
                Ok {| status_code := 201; first_message := Ok build_boldly |};
              random_draw := 0 |}
           [(py "daysLeft", py "23"); (py "totalTarget", py "100")])
    = Ok (fallback_answer 23 100 q fq).
Proof.
  apply (X7_status_other_than_200
           {| requests_post := fun _ =>
                Ok {| status_code := 201; first_message := Ok build_boldly |};
              random_draw := 0 |}
           [(py "daysLeft", py "23"); (py "totalTarget", py "100")] 23 100
           {| status_code := 201; first_message := Ok build_boldly |}).
  - unfold validated.
    split; [vm_compute; reflexivity|].
    split; [vm_compute; reflexivity|]. lia.
  - intros p. reflexivity.
  - discriminate.
Defined.

Lemma client_reports_extraction_failure (w : world) (days_left total_target : Z)
    (resp : http_response) (m : message) (e : str) :
  0 <= days_left <= total_target -> 0 < total_target ->
  (forall p, requests_post w p = Ok resp) ->
  status_code resp = 200 -> first_message resp = Ok m ->
  extract m = raise e ->
  fst (get_quote_from_llm w days_left total_target) = Ok (None, Some e).
Proof.
  intros Hd Ht Hpost Hstatus Hmsg He.
  destruct (truediv_total (total_target - days_left) total_target) as [q Hq];
    [lia | lia |].
  unfold get_quote_from_llm.
  rewrite (generate_motivational_prompt_ok _ _ q Hq).
  unfold post, bind, emit, lift, try_except, ret.
  rewrite Hpost, Hstatus, Hmsg, (normalize_raises m e He). reflexivity.
Qed.

(** X8.  A [content] that is not a string (a JSON null, for one), or,
    when [content] gives nothing, a [reasoning] that is not a string, makes
    the string method raise; the client reports the text of that exception
    and the handler answers with a fallback quote. *)
Theorem X8_field_that_is_not_a_string
    (w : world) (a : args) (days_left total_target : Z)
    (resp : http_response) (m : message) (t : pytype) (attr : str) :
  validated a days_left total_target ->
  (forall p, requests_post w p = Ok resp) ->
  status_code resp = 200 -> first_message resp = Ok m ->
  (content m = Some (NonStr t) /\ attr = py "strip") \/
  (primary m = ret [] /\ reasoning m = Some (NonStr t) /\ attr = py "lower") ->
  fst (get_quote_from_llm w days_left total_target)
  = Ok (None, Some (no_attribute t attr)) /\
  exists q fq,
    truediv (total_target - days_left) total_target = Ok q /\
    In fq fallback_quotes /\
    fst (get_motivational_quote w a)
    = Ok (fallback_answer days_left total_target q fq).
Proof.
  intros Hv Hpost Hstatus Hmsg Hfield.
  pose proof Hv as (_ & _ & H0 & H1 & H2).
  assert (He : extract m = raise (no_attribute t attr)).
  { destruct Hfield as [[Hc ->]|(Hp & Hr & ->)].
    - unfold extract, primary. rewrite Hc. reflexivity.
    - unfold extract. rewrite Hp, Hr. reflexivity. }
  assert (Hres : fst (get_quote_from_llm w days_left total_target)
                 = Ok (None, Some (no_attribute t attr)))
    by (apply (client_reports_extraction_failure w days_left total_target resp m);
        trivial; lia).
  split; [exact Hres|].
  apply (error_with_text_gets_fallback w a days_left total_target None _ Hv Hres).
  discriminate.
Qed.

Lemma X8_witness :
  fst (get_quote_from_llm
         {| requests_post := fun _ =>
              Ok {| status_code := 200;
                    first_message :=
                      Ok {| content := Some (NonStr NoneType);
                            reasoning := Some (Str (py "the quote: Build boldly.")) |} |};
            random_draw := 0 |} 23 100)
  = Ok (None, Some (py "'NoneType' object has no attribute 'strip'")) /\
  exists q fq,
    truediv (100 - 23) 100 = Ok q /\
    In fq fallback_quotes /\
    fst (get_motivational_quote
           {| requests_post := fun _ =>
                Ok {| status_code := 200;
                      first_message :=
                        Ok {| content := Some (NonStr NoneType);
                              reasoning := Some (Str (py "the quote: Build boldly.")) |} |};
              random_draw := 0 |}
           [(py "daysLeft", py "23"); (py "totalTarget", py "100")])
    = Ok (fallback_answer 23 100 q fq).
Proof.
  apply (X8_field_that_is_not_a_string
           {| requests_post := fun _ =>
                Ok {| status_code := 200;
                      first_message :=
                        Ok {| content := Some (NonStr NoneType);
                              reasoning := Some (Str (py "the quote: Build boldly.")) |} |};
              random_draw := 0 |}
           [(py "daysLeft", py "23"); (py "totalTarget", py "100")] 23 100
           {| status_code := 200;
              first_message :=
                Ok {| content := Some (NonStr NoneType);
                      reasoning := Some (Str (py "the quote: Build boldly.")) |} |}
           {| content := Some (NonStr NoneType);
              reasoning := Some (Str (py "the quote: Build boldly.")) |}
           NoneType (py "strip")).
  - unfold validated.
    split; [vm_compute; reflexivity|].
    split; [vm_compute; reflexivity|]. lia.
  - intros p. reflexivity.
  - reflexivity.
  - reflexivity.
  - left. split; reflexivity.
Defined.

Lemma edge_free_between (p : ascii -> bool) (c : ascii) (t : str) :
  p c = false -> edge_free p (c :: t ++ [c]).
Proof.
  intros Hc. split; intros x s' Hx.
  - injection Hx as <- _. exact Hc.
  - change (c :: t ++ [c]) with ((c :: t) ++ [c]) in Hx.
    apply app_inj_tail in Hx. destruct Hx as [_ <-]. exact Hc.
Qed.

Lemma stripped_between (p : ascii -> bool) (c : ascii) (t : str) :
  p c = true -> edge_free p t -> stripped p (c :: t ++ [c]) t.
Proof.
  intros Hc Ht. exists [c], [c].
  split; [reflexivity|]. repeat split; try (constructor; [exact Hc | constructor]).
  - apply Ht.
  - apply Ht.
Qed.

Lemma stripped_self (p : ascii -> bool) (t : str) : edge_free p t -> stripped p t t.
Proof.
  intros Ht. exists [], [].
  split; [rewrite app_nil_r; reflexivity|]. repeat split; try constructor; apply Ht.
Qed.

(** X9.  The order of the removals shows: of single quotes inside double
    quotes both pairs go, of double quotes inside single quotes only the
    single quotes go, since the double quotes are looked for first.  So a
    second pass over a quote may still change it. *)
Theorem X9_order_of_quote_removal :
  (forall t,
     edge_free (fun c => eqb_char c squote) t -> edge_free isspace t ->
     unquote (dquote :: (squote :: t ++ [squote]) ++ [dquote]) = t) /\
  (forall t,
     unquote (squote :: (dquote :: t ++ [dquote]) ++ [squote])
     = dquote :: t ++ [dquote]).
Proof.
  split.
  - intros t Hsq Hws. symmetry. apply unquoted_unique.
    exists (squote :: t ++ [squote]), t.
    split; [|split].
    + apply stripped_between; [reflexivity|].
      apply edge_free_between. reflexivity.
    + apply stripped_between; [reflexivity | exact Hsq].
    + apply stripped_self. exact Hws.
  - intros t. symmetry. apply unquoted_unique.
    exists (squote :: (dquote :: t ++ [dquote]) ++ [squote]), (dquote :: t ++ [dquote]).
    split; [|split].
    + apply stripped_self. apply edge_free_between. reflexivity.
    + apply stripped_between; [reflexivity|].
      apply edge_free_between. reflexivity.
    + apply stripped_self. apply edge_free_between. reflexivity.
Qed.

Lemma X9_witness :
  unquote (dquote :: (squote :: py "Stay bold" ++ [squote]) ++ [dquote]) = py "Stay bold".
Proof.
  apply (proj1 X9_order_of_quote_removal (py "Stay bold")).
  - split; intros c s' H.
    + vm_compute in H. injection H as <- _. reflexivity.
    + change (py "Stay bold") with (py "Stay bol" ++ ["d"%char]) in H.
      apply app_inj_tail in H. destruct H as [_ <-]. reflexivity.
  - split; intros c s' H.
    + vm_compute in H. injection H as <- _. reflexivity.
    + change (py "Stay bold") with (py "Stay bol" ++ ["d"%char]) in H.
      apply app_inj_tail in H. destruct H as [_ <-]. reflexivity.
Defined.

(** X14.  When [content] gives nothing and the reasoning mentions
    "quote" but has no line with a marker, the text extracted is the last
    sentence: what follows the last ". " of the reasoning, trimmed, without
    one final ".". *)
Theorem X14_last_sentence_without_marker (m : message) (r s1 s2 : str) :
  primary m = ret [] ->
  reasoning m = Some (Str r) ->
  contains (py "quote") (lower r) = true ->
  Forall (fun l => has_keyword l = false) (split newline r) ->
  r = s1 ++ py ". " ++ s2 -> contains (py ". ") s2 = false ->
  extract m
  = ret (if endswith (py ".") (strip s2) then drop_last (strip s2) else strip s2).
Proof.
  intros Hp Hr Hq Hlines Hsplit Hs2.
  rewrite (extract_from_reasoning m r Hp Hr).
  rewrite (from_reasoning_no_marker r Hq Hlines).
  cbv zeta. rewrite Hsplit, (last_sentence_after s1 s2 Hs2). reflexivity.
Qed.

Lemma X14_witness :
  extract {| content := None;
             reasoning := Some (Str (py "I think about a quote. Here it is. Go on.")) |}
  = ret (if endswith (py ".") (strip (py "Go on."))
         then drop_last (strip (py "Go on.")) else strip (py "Go on.")).
Proof.
  apply (X14_last_sentence_without_marker
           {| content := None;
              reasoning := Some (Str (py "I think about a quote. Here it is. Go on.")) |}
           (py "I think about a quote. Here it is. Go on.")
           (py "I think about a quote. Here it is") (py "Go on.")).
  - vm_compute. reflexivity.
  - reflexivity.
  - vm_compute. reflexivity.
  - replace (split newline (py "I think about a quote. Here it is. Go on."))
      with [py "I think about a quote. Here it is. Go on."]
      by (vm_compute; reflexivity).
    constructor; [vm_compute; reflexivity | constructor].
  - vm_compute. reflexivity.
  - vm_compute. reflexivity.
Defined.

(** ** Floating point against exact arithmetic *)

Lemma loc_of_record (m : Z) (l : location) :
  loc_of_shr_record (shr_record_of_loc m l) = l.
Proof. destruct l as [|[| |]]; reflexivity. Qed.

Lemma describes_start (num den : Z) :
  describes (shr_record_of_loc (num / den) (loc_of num den)) num den.
Proof. split; [apply shr_m_of_loc | apply loc_of_record]. Qed.

Lemma shr_1_m (mrs : shr_record) :
  0 <= shr_m mrs -> shr_m (shr_1 mrs) = shr_m mrs / 2.
Proof.
  destruct mrs as [m r s]. cbn [shr_m]. intros Hm.
  destruct m as [|[p|p|]|p]; try lia; cbn [shr_1 shr_m].
  - reflexivity.
  - rewrite Pos2Z.inj_xI. apply (Z.div_unique _ 2 _ 1); lia.
  - rewrite Pos2Z.inj_xO. apply (Z.div_unique _ 2 _ 0); lia.
  - reflexivity.
Qed.

Lemma shr_1_loc (mrs : shr_record) :
  0 <= shr_m mrs ->
  loc_of_shr_record (shr_1 mrs)
  = match Z.odd (shr_m mrs), loc_of_shr_record mrs with
    | false, loc_Exact => loc_Exact
    | false, _ => loc_Inexact Lt
    | true, loc_Exact => loc_Inexact Eq
    | true, _ => loc_Inexact Gt
    end.
Proof.
  destruct mrs as [m r s]. cbn [shr_m]. intros Hm.
  destruct m as [|[p|p|]|p]; try lia; destruct r, s; reflexivity.
Qed.

Lemma describes_shr_1 (mrs : shr_record) (num den : Z) :
  0 <= num -> 0 < den ->
  describes mrs num den -> describes (shr_1 mrs) num (2 * den).
Proof.
  intros Hnum Hden [Hm Hl].
  assert (Hm0 : 0 <= shr_m mrs) by (rewrite Hm; apply Z.div_pos; lia).
  pose proof (Z.div_mod num den ltac:(lia)) as Hdm.
  pose proof (Z.mod_pos_bound num den Hden) as Hr.
  set (m := num / den) in *. set (r := num mod den) in *.
  pose proof (Z.div_mod m 2 ltac:(lia)) as Hm2.
  pose proof (Z.mod_pos_bound m 2 ltac:(lia)) as Hb.
  assert (Hq : num / (2 * den) = m / 2).
  { symmetry. apply (Z.div_unique num (2 * den) (m / 2) (den * (m mod 2) + r)); nia. }
  assert (Hrem : num mod (2 * den) = den * (m mod 2) + r).
  { symmetry. apply (Z.mod_unique num (2 * den) (m / 2)); nia. }
  split.
  - rewrite shr_1_m by exact Hm0. rewrite Hm. symmetry. exact Hq.
  - rewrite shr_1_loc by exact Hm0. rewrite Hl, Hm.
    unfold loc_of. fold r. rewrite Hrem.
    pose proof (Zmod_odd m) as Hmo.
    destruct (Z.odd m); rewrite Hmo.
    + rewrite Z.mul_1_r.
      replace (den + r =? 0) with false by (symmetry; apply Z.eqb_neq; lia).
      destruct (r =? 0) eqn:Hr0.
      * apply Z.eqb_eq in Hr0. rewrite Hr0.
        replace (2 * (den + 0) ?= 2 * den) with Eq; [reflexivity|].
        symmetry. apply Z.compare_eq_iff. lia.
      * apply Z.eqb_neq in Hr0.
        replace (2 * (den + r) ?= 2 * den) with Gt; [reflexivity|].
        symmetry. apply Z.compare_gt_iff. lia.
    + rewrite Z.mul_0_r, Z.add_0_l.
      destruct (r =? 0) eqn:Hr0; [reflexivity|].
      apply Z.eqb_neq in Hr0.
      replace (2 * r ?= 2 * den) with Lt; [reflexivity|].
      symmetry. apply Z.compare_lt_iff. lia.
Qed.

Lemma describes_iter_shr_1 (p : positive) :
  forall mrs num den,
    0 <= num -> 0 < den ->
    describes mrs num den ->
    describes (iter_pos shr_1 p mrs) num (2 ^ Zpos p * den).
Proof.
  induction p as [p IH|p IH|]; intros mrs num den Hnum Hden H; cbn [iter_pos].
  - replace (2 ^ Zpos p~1 * den) with (2 ^ Zpos p * (2 ^ Zpos p * (2 * den))).
    + assert (0 < 2 ^ Zpos p) by (apply Z.pow_pos_nonneg; lia).
      apply IH; [lia | nia |]. apply IH; [lia | lia |].
      apply describes_shr_1; assumption.
    + replace (Zpos p~1) with (Zpos p + Zpos p + 1) by lia.
      rewrite !Z.pow_add_r, Z.pow_1_r by lia. ring.
  - replace (2 ^ Zpos p~0 * den) with (2 ^ Zpos p * (2 ^ Zpos p * den)).
    + assert (0 < 2 ^ Zpos p) by (apply Z.pow_pos_nonneg; lia).
      apply IH; [lia | nia |]. apply IH; assumption.
    + replace (Zpos p~0) with (Zpos p + Zpos p) by lia.
      rewrite Z.pow_add_r by lia. ring.
  - rewrite Z.pow_1_r. apply describes_shr_1; assumption.
Qed.

Lemma round_nearest_even_describes (mrs : shr_record) (num den : Z) :
  0 < den ->
  describes mrs num den ->
  round_nearest_even (shr_m mrs) (loc_of_shr_record mrs) = div_half_even num den.
Proof.
  intros Hden [Hm Hl]. rewrite Hm, Hl. unfold loc_of, div_half_even.
  destruct (num mod den =? 0) eqn:Hr.
  - apply Z.eqb_eq in Hr. rewrite Hr. cbn [round_nearest_even].
    change (2 * 0) with 0. unfold Z.lt in Hden. rewrite Hden. reflexivity.
  - destruct (2 * (num mod den) ?= den); reflexivity.
Qed.

Lemma Zdigits2_unique (m d : Z) :
  0 < d -> 2 ^ (d - 1) <= m < 2 ^ d -> Zdigits2 m = d.
Proof.
  intros Hd [Hlo Hhi].
  assert (Hm : 0 < m).
  { pose proof (Z.pow_pos_nonneg 2 (d - 1) ltac:(lia) ltac:(lia)). lia. }
  rewrite Zdigits2_log2 by exact Hm.
  rewrite (Z.log2_unique m (d - 1)); [lia | lia |].
  split; [exact Hlo|]. replace (Z.succ (d - 1)) with d by lia. exact Hhi.
Qed.

Lemma div_half_even_bounds (n d lo hi : Z) :
  0 < d -> lo * d <= n < hi * d -> lo <= div_half_even n d <= hi.
Proof.
  intros Hd [Hlo Hhi]. unfold div_half_even.
  pose proof (Z.div_mod n d ltac:(lia)) as Hdm.
  pose proof (Z.mod_pos_bound n d Hd) as Hr.
  assert (Hq : lo <= n / d < hi) by (split; [apply Z.div_le_lower_bound | apply Z.div_lt_upper_bound]; lia).
  destruct (2 * (n mod d) ?= d); [destruct (Z.even (n / d))| |]; lia.
Qed.

(** Rounding in the normal range: when the integer part of [num / den]
    has [53 + k] bits, the result is [num / (2^k * den)] rounded to the
    nearest integer, ties to even, with the exponent moved by [k]. *)
Lemma binary_round_aux_normal (s : bool) (num den e k : Z) :
  0 < den -> 0 <= k ->
  2 ^ (52 + k) * den <= num < 2 ^ (53 + k) * den ->
  -1074 <= e + k <= 970 ->
  binary_round_aux prec emax s (num / den) e (loc_of num den)
  = normalised s (div_half_even num (2 ^ k * den)) (e + k).
Proof.
  intros Hden Hk [Hlo Hhi] He.
  assert (Hp52 : 0 < 2 ^ (52 + k)) by (apply Z.pow_pos_nonneg; lia).
  assert (Hpk : 0 < 2 ^ k) by (apply Z.pow_pos_nonneg; lia).
  assert (Hnum : 0 <= num) by nia.
  assert (Hm : 2 ^ (52 + k) <= num / den < 2 ^ (53 + k)).
  { split; [apply Z.div_le_lower_bound | apply Z.div_lt_upper_bound]; lia. }
  assert (Hdig : Zdigits2 (num / den) = 53 + k).
  { apply Zdigits2_unique; [lia|].
    replace (53 + k - 1) with (52 + k) by lia. exact Hm. }
  unfold binary_round_aux.
  (* first alignment *)
  assert (H1 : exists mrs,
             shr_fexp prec emax (num / den) e (loc_of num den) = (mrs, e + k) /\
             describes mrs num (2 ^ k * den)).
  { unfold shr_fexp. rewrite Hdig.
    replace (fexp prec emax (53 + k + e) - e) with k
      by (unfold fexp, emin, prec, emax; lia).
    unfold shr. destruct k as [|p|p]; [| |lia].
    - eexists. split; [rewrite Z.add_0_r; reflexivity|].
      rewrite Z.pow_0_r, Z.mul_1_l. apply describes_start.
    - eexists. split; [reflexivity|].
      apply describes_iter_shr_1; [lia | lia | apply describes_start]. }
  destruct H1 as (mrs & -> & Hdesc).
  rewrite (round_nearest_even_describes mrs num (2 ^ k * den) ltac:(nia) Hdesc).
  set (M := div_half_even num (2 ^ k * den)).
  assert (HM : 2 ^ 52 <= M <= 2 ^ 53).
  { apply div_half_even_bounds; [nia|].
    rewrite !Z.pow_add_r in Hlo, Hhi by lia. split; nia. }
  unfold normalised.
  destruct (M =? 2 ^ 53) eqn:Hcarry.
  - apply Z.eqb_eq in Hcarry. rewrite Hcarry.
    unfold shr_fexp.
    replace (Zdigits2 (2 ^ 53)) with 54 by reflexivity.
    replace (fexp prec emax (54 + (e + k)) - (e + k)) with 1
      by (unfold fexp, emin, prec, emax; lia).
    cbn [shr shr_record_of_loc iter_pos].
    change (shr_m (shr_1 {| shr_m := 2 ^ 53; shr_r := false; shr_s := false |}))
      with (2 ^ 52).
    change (2 ^ 52) with (Zpos (Z.to_pos (2 ^ 52))) at 1.
    cbv iota beta.
    replace (e + k + 1 <=? emax - prec) with true
      by (symmetry; apply Z.leb_le; unfold emax, prec; lia).
    reflexivity.
  - apply Z.eqb_neq in Hcarry.
    assert (HdM : Zdigits2 M = 53)
      by (apply Zdigits2_unique; [lia | change (53 - 1) with 52; lia]).
    unfold shr_fexp. rewrite HdM.
    replace (fexp prec emax (53 + (e + k)) - (e + k)) with 0
      by (unfold fexp, emin, prec, emax; lia).
    cbn [shr shr_record_of_loc shr_m].
    assert (HMpos : 0 < M)
      by (pose proof (Z.pow_pos_nonneg 2 52 ltac:(lia) ltac:(lia)); lia).
    clearbody M. destruct M as [|pM|pM]; [lia| |lia].
    replace (e + k <=? emax - prec) with true
      by (symmetry; apply Z.leb_le; unfold emax, prec; lia).
    reflexivity.
Qed.

Lemma compare_scale (c x y : Z) : 0 < c -> (c * x ?= c * y) = (x ?= y).
Proof.
  intros Hc. destruct (Z.compare_spec x y) as [->|H|H].
  - apply Z.compare_refl.
  - apply Z.compare_lt_iff. nia.
  - apply Z.compare_gt_iff. nia.
Qed.

Lemma div_half_even_scale (c n d : Z) :
  0 < c -> 0 < d -> div_half_even (c * n) (c * d) = div_half_even n d.
Proof.
  intros Hc Hd. unfold div_half_even.
  rewrite Z.div_mul_cancel_l by lia.
  rewrite Z.mul_mod_distr_l by lia.
  replace (2 * (c * (n mod d))) with (c * (2 * (n mod d))) by ring.
  rewrite compare_scale by exact Hc. reflexivity.
Qed.

Lemma new_location_loc_of (num den : Z) :
  0 < den -> new_location den (num mod den) = loc_of num den.
Proof.
  intros Hden. unfold new_location, loc_of.
  pose proof (Z.mod_pos_bound num den Hden) as Hr.
  set (r := num mod den) in *.
  destruct (Z.even den) eqn:Hev.
  - unfold new_location_even. reflexivity.
  - unfold new_location_odd. destruct (r =? 0); [reflexivity|].
    f_equal.
    assert (Hodd : den mod 2 = 1).
    { rewrite Zmod_odd, <- Z.negb_even, Hev. reflexivity. }
    pose proof (Z.div_mod den 2 ltac:(lia)) as Hd2.
    destruct (2 * r + 1 ?= den) eqn:Hc; symmetry.
    + apply Z.compare_eq in Hc. apply Z.compare_lt_iff. lia.
    + rewrite Z.compare_lt_iff in Hc. apply Z.compare_lt_iff. lia.
    + rewrite Z.compare_gt_iff in Hc. apply Z.compare_gt_iff. lia.
Qed.

Lemma Zdigits2_bounds (m : Z) :
  0 < m -> 2 ^ (Zdigits2 m - 1) <= m < 2 ^ Zdigits2 m.
Proof.
  intros Hm. rewrite Zdigits2_log2 by exact Hm.
  replace (Z.log2 m + 1 - 1) with (Z.log2 m) by lia.
  pose proof (Z.log2_spec m Hm) as H. unfold Z.succ in H. exact H.
Qed.

(** The quotient of two positive integers, as a float: [a / b] scaled to
    53 bits before the point, rounded to the nearest integer with ties to
    even, and scaled back. *)
Lemma SFdiv_exact_int (a b : positive) :
  Zdigits2 (Zpos b) - Zdigits2 (Zpos a) <= 1020 ->
  Zdigits2 (Zpos a) - Zdigits2 (Zpos b) <= 52 ->
  exists t,
    2 ^ 52 * Zpos b <= Zpos a * 2 ^ t < 2 ^ 53 * Zpos b /\
    0 <= t <= 1074 /\
    SFdiv prec emax (exact_int (Zpos a)) (exact_int (Zpos b))
    = normalised false (div_half_even (Zpos a * 2 ^ t) (Zpos b)) (- t).
Proof.
  intros Hsmall Hlarge.
  cbn [exact_int SFdiv xorb]. unfold SFdiv_core_binary.
  set (d1 := Zdigits2 (Zpos a)) in *. set (d2 := Zdigits2 (Zpos b)) in *.
  pose proof (Zdigits2_bounds (Zpos a) ltac:(lia)) as Ha. fold d1 in Ha.
  pose proof (Zdigits2_bounds (Zpos b) ltac:(lia)) as Hb. fold d2 in Hb.
  assert (Hd1 : 0 < d1) by (unfold d1; simpl; lia).
  assert (Hd2 : 0 < d2) by (unfold d2; simpl; lia).
  replace (Z.min (fexp prec emax (d1 + 0 - (d2 + 0))) (0 - 0)) with (d1 - d2 - 53)
    by (unfold fexp, emin, prec, emax; lia).
  replace (0 - 0 - (d1 - d2 - 53)) with (53 + d2 - d1) by lia.
  set (sh := 53 + d2 - d1) in *.
  assert (Hsh : 0 < sh) by (unfold sh; lia).
  destruct sh as [|psh|psh] eqn:Hshe; try lia.
  rewrite <- Hshe in *. rewrite Z.shiftl_mul_pow2 by lia.
  set (num := Zpos a * 2 ^ sh).
  pose proof (Z.div_eucl_eq num (Zpos b) ltac:(lia)) as Heq.
  assert (Hdiv : Z.div_eucl num (Zpos b) = (num / Zpos b, num mod Zpos b)).
  { unfold Z.div, Z.modulo. destruct (Z.div_eucl num (Zpos b)). reflexivity. }
  rewrite Hdiv. rewrite new_location_loc_of by lia.
  (* the size of the scaled numerator *)
  assert (Hp1 : 2 ^ (d1 - 1) * 2 ^ sh = 2 ^ (52 + d2))
    by (rewrite <- Z.pow_add_r by lia; f_equal; lia).
  assert (Hp2 : 2 ^ d1 * 2 ^ sh = 2 ^ 54 * 2 ^ (d2 - 1))
    by (rewrite <- !Z.pow_add_r by lia; f_equal; lia).
  assert (Hp3 : 2 ^ (52 + d2) = 2 ^ 52 * 2 ^ d2) by (apply Z.pow_add_r; lia).
  assert (Hpsh : 0 < 2 ^ sh) by (apply Z.pow_pos_nonneg; lia).
  assert (Hlo : 2 ^ 52 * Zpos b <= num) by (unfold num; nia).
  assert (Hhi : num < 2 ^ 54 * Zpos b) by (unfold num; nia).
  destruct (Z_lt_dec num (2 ^ 53 * Zpos b)) as [Hk|Hk].
  - exists sh. split; [split; [exact Hlo | exact Hk]|]. split; [unfold sh; lia|].
    rewrite (binary_round_aux_normal false num (Zpos b) (d1 - d2 - 53) 0);
      [| lia | lia | change (52 + 0) with 52; change (53 + 0) with 53; lia
       | unfold sh in *; lia].
    rewrite Z.pow_0_r, Z.mul_1_l. f_equal. unfold sh. lia.
  - exists (sh - 1).
    assert (Hsh1 : 2 ^ sh = 2 * 2 ^ (sh - 1)).
    { rewrite <- Z.pow_succ_r by lia. f_equal. lia. }
    split; [unfold num in *; split; nia|]. split; [unfold sh; lia|].
    rewrite (binary_round_aux_normal false num (Zpos b) (d1 - d2 - 53) 1);
      [| lia | lia
       | change (52 + 1) with 53; change (53 + 1) with 54; lia
       | unfold sh in *; lia].
    rewrite Z.pow_1_r. unfold num. rewrite Hsh1.
    replace (Zpos a * (2 * 2 ^ (sh - 1))) with (2 * (Zpos a * 2 ^ (sh - 1))) by ring.
    rewrite div_half_even_scale by lia.
    f_equal. unfold sh. lia.
Qed.

Lemma div_half_even_le (n d hi : Z) :
  0 < d -> n <= hi * d -> div_half_even n d <= hi.
Proof.
  intros Hd Hhi. unfold div_half_even.
  pose proof (Z.div_mod n d ltac:(lia)) as Hdm.
  pose proof (Z.mod_pos_bound n d Hd) as Hr.
  destruct (2 * (n mod d) ?= d) eqn:Hc.
  - apply Z.compare_eq in Hc. destruct (Z.even (n / d)); nia.
  - nia.
  - rewrite Z.compare_gt_iff in Hc. nia.
Qed.

Lemma div_half_even_ge (n d lo : Z) :
  0 < d -> lo * d <= n -> lo <= div_half_even n d.
Proof.
  intros Hd Hlo. unfold div_half_even.
  pose proof (Z.div_mod n d ltac:(lia)) as Hdm.
  pose proof (Z.mod_pos_bound n d Hd) as Hr.
  assert (lo <= n / d) by (apply Z.div_le_lower_bound; lia).
  destruct (2 * (n mod d) ?= d); [destruct (Z.even (n / d))| |]; lia.
Qed.

(** A float with a mantissa of 53 bits times 100. *)
Lemma mul_int_100_normal (m : positive) (e : Z) :
  2 ^ 52 <= Zpos m < 2 ^ 53 -> -1080 <= e <= 963 ->
  mul_int (S754_finite false m e) 100
  = if 25 * Zpos m <? 2 ^ 57
    then normalised false (div_half_even (25 * Zpos m) 16) (e + 6)
    else normalised false (div_half_even (25 * Zpos m) 32) (e + 7).
Proof.
  intros Hm He. unfold mul_int. rewrite float_of_int_100.
  cbn [SFmul xorb].
  set (X := Zpos (m * 7036874417766400)).
  assert (HX : X = 2 ^ 48 * (25 * Zpos m)).
  { unfold X. rewrite Pos2Z.inj_mul.
    change (Zpos 7036874417766400) with (2 ^ 48 * 25). ring. }
  replace (binary_round_aux prec emax false X (e + -46) loc_Exact)
    with (binary_round_aux prec emax false (X / 1) (e + -46) (loc_of X 1)).
  2:{ rewrite Z.div_1_r. unfold loc_of. rewrite Z.mod_1_r. reflexivity. }
  destruct (25 * Zpos m <? 2 ^ 57) eqn:Hc.
  - apply Z.ltb_lt in Hc.
    rewrite (binary_round_aux_normal false X 1 (e + -46) 52);
      [| lia | lia
       | change (52 + 52) with 104; change (53 + 52) with 105;
         change (2 ^ 104) with (2 ^ 48 * 2 ^ 56);
         change (2 ^ 105) with (2 ^ 48 * 2 ^ 57); lia
       | lia].
    rewrite HX, Z.mul_1_r. change (2 ^ 52) with (2 ^ 48 * 16).
    rewrite div_half_even_scale by lia. f_equal. lia.
  - apply Z.ltb_ge in Hc.
    rewrite (binary_round_aux_normal false X 1 (e + -46) 53);
      [| lia | lia
       | change (52 + 53) with 105; change (53 + 53) with 106;
         change (2 ^ 105) with (2 ^ 48 * 2 ^ 57);
         change (2 ^ 106) with (2 ^ 48 * 2 ^ 58); lia
       | lia].
    rewrite HX, Z.mul_1_r. change (2 ^ 53) with (2 ^ 48 * 32).
    rewrite div_half_even_scale by lia. f_equal. lia.
Qed.

(** Order of two positive floats with mantissas of 53 bits, read on their
    values scaled by a common power of two. *)
Lemma SFltb_53_bits (m mc : positive) (e ec L : Z) :
  2 ^ 52 <= Zpos m < 2 ^ 53 -> 2 ^ 52 <= Zpos mc < 2 ^ 53 ->
  L <= e -> L <= ec ->
  (SFltb (S754_finite false m e) (S754_finite false mc ec) = true
   <-> Zpos m * 2 ^ (e - L) < Zpos mc * 2 ^ (ec - L)).
Proof.
  intros Hm Hmc He Hec. unfold SFltb. cbn [SFcompare].
  assert (Hpe : 0 < 2 ^ (e - L)) by (apply Z.pow_pos_nonneg; lia).
  assert (Hpc : 0 < 2 ^ (ec - L)) by (apply Z.pow_pos_nonneg; lia).
  destruct (Z.compare_spec e ec) as [->|Hlt|Hgt].
  - rewrite Pos.compare_cont_spec. cbn [Pos.switch_Eq].
    change (Pos.compare m mc) with (Zpos m ?= Zpos mc).
    destruct (Z.compare_spec (Zpos m) (Zpos mc)) as [Heq|Hl|Hg];
      split; intros H; try discriminate; try reflexivity; nia.
  - assert (Hpow : 2 ^ (ec - L) = 2 ^ (ec - e - 1) * (2 * 2 ^ (e - L))).
    { rewrite <- Z.pow_succ_r, <- Z.pow_add_r by lia. f_equal. lia. }
    assert (Hp1 : 0 < 2 ^ (ec - e - 1)) by (apply Z.pow_pos_nonneg; lia).
    split; [intros _ | reflexivity]. rewrite Hpow. nia.
  - assert (Hpow : 2 ^ (e - L) = 2 ^ (e - ec - 1) * (2 * 2 ^ (ec - L))).
    { rewrite <- Z.pow_succ_r, <- Z.pow_add_r by lia. f_equal. lia. }
    assert (Hp1 : 0 < 2 ^ (e - ec - 1)) by (apply Z.pow_pos_nonneg; lia).
    split; [discriminate|]. rewrite Hpow. nia.
Qed.

Lemma SFltb_normalised (M : Z) (mc : positive) (E ec L : Z) :
  2 ^ 52 <= M <= 2 ^ 53 -> 2 ^ 52 <= Zpos mc < 2 ^ 53 ->
  L <= E -> L <= ec ->
  (SFltb (normalised false M E) (S754_finite false mc ec) = true
   <-> M * 2 ^ (E - L) < Zpos mc * 2 ^ (ec - L)).
Proof.
  intros HM Hmc HE Hec. unfold normalised.
  destruct (M =? 2 ^ 53) eqn:Hcarry.
  - apply Z.eqb_eq in Hcarry. subst M.
    rewrite (SFltb_53_bits _ mc (E + 1) ec L); [| | exact Hmc | lia | lia].
    2:{ rewrite Z2Pos.id by reflexivity. split; [lia | reflexivity]. }
    rewrite Z2Pos.id by reflexivity.
    replace (E + 1 - L) with (Z.succ (E - L)) by lia.
    rewrite Z.pow_succ_r by lia.
    change (2 ^ 53) with (2 ^ 52 * 2).
    replace (2 ^ 52 * (2 * 2 ^ (E - L))) with (2 ^ 52 * 2 * 2 ^ (E - L)) by ring.
    reflexivity.
  - apply Z.eqb_neq in Hcarry.
    assert (HMpos : 0 < M)
      by (pose proof (Z.pow_pos_nonneg 2 52 ltac:(lia) ltac:(lia)); lia).
    rewrite (SFltb_53_bits _ mc E ec L); [| | exact Hmc | lia | lia].
    2:{ rewrite Z2Pos.id by exact HMpos. lia. }
    rewrite Z2Pos.id by exact HMpos. reflexivity.
Qed.

(** The float quotient of [1 <= a <= b <= 2^50]: a mantissa of 53 bits,
    no carry. *)
Lemma truediv_53_bits (a b : positive) :
  (a <= b)%positive -> Zpos b <= 2 ^ 50 ->
  exists t M,
    52 <= t <= 102 /\
    2 ^ 52 <= M < 2 ^ 53 /\
    M = div_half_even (Zpos a * 2 ^ t) (Zpos b) /\
    truediv (Zpos a) (Zpos b) = Ok (S754_finite false (Z.to_pos M) (- t)).
Proof.
  intros Hab Hb.
  assert (Hdig : Zdigits2 (Zpos a) <= Zdigits2 (Zpos b))
    by (apply Zdigits2_mono; lia).
  assert (Hdb : Zdigits2 (Zpos b) <= 51)
    by (apply (Zdigits2_le_pow2 (Zpos b) 50); lia).
  pose proof (Zdigits2_nonneg (Zpos a)) as Hda.
  destruct (SFdiv_exact_int a b ltac:(lia) ltac:(lia)) as (t & [Hlo Hhi] & Ht & Hdiv).
  assert (Hpt : 0 < 2 ^ t) by (apply Z.pow_pos_nonneg; lia).
  assert (Ht52 : 52 <= t).
  { apply (Z.pow_le_mono_r_iff 2); [lia | lia |]. nia. }
  assert (Ht102 : t <= 102).
  { assert (H : 2 ^ t < 2 ^ 103) by (change (2 ^ 103) with (2 ^ 53 * 2 ^ 50); nia).
    apply Z.pow_lt_mono_r_iff in H; lia. }
  assert (Hsplit : 2 ^ t = 2 ^ 52 * 2 ^ (t - 52)).
  { rewrite <- Z.pow_add_r by lia. f_equal. lia. }
  assert (Hp52 : 0 < 2 ^ (t - 52)) by (apply Z.pow_pos_nonneg; lia).
  set (M := div_half_even (Zpos a * 2 ^ t) (Zpos b)) in *.
  assert (HM : 2 ^ 52 <= M <= 2 ^ 53 - 4).
  { split.
    - apply div_half_even_ge; lia.
    - apply div_half_even_le; [lia|].
      rewrite Hsplit in *. change (2 ^ 53) with (2 ^ 52 * 2) in *.
      change (2 ^ 50) with 1125899906842624 in Hb.
      change (2 ^ 52) with 4503599627370496 in *. nia. }
  exists t, M. split; [lia|]. split; [lia|]. split; [reflexivity|].
  unfold truediv. cbn [Z.eqb]. rewrite Hdiv. unfold normalised.
  replace (M =? 2 ^ 53) with false by (symmetry; apply Z.eqb_neq; lia).
  reflexivity.
Qed.

(** The progress percentage against a threshold [25 * n], read on the
    integers: it is below the threshold exactly when [4 * a < n * b]. *)
Lemma progress_below_threshold (a b : positive) (n : Z) (mc : positive) (ec : Z) :
  (a <= b)%positive -> Zpos b <= 2 ^ 50 ->
  1 <= n <= 3 ->
  2 ^ 52 <= Zpos mc < 2 ^ 53 -> -48 <= ec <= 0 ->
  Zpos mc = 25 * n * 2 ^ (- ec) ->
  exists q,
    truediv (Zpos a) (Zpos b) = Ok q /\
    (SFltb (mul_int q 100) (S754_finite false mc ec) = true
     <-> 4 * Zpos a < n * Zpos b).
Proof.
  intros Hab Hb Hn Hmc Hec Hval.
  destruct (truediv_53_bits a b Hab Hb) as (t & M & Ht & HM & HMdef & Hq).
  exists (S754_finite false (Z.to_pos M) (- t)). split; [exact Hq|].
  assert (HMpos : 0 < M)
    by (pose proof (Z.pow_pos_nonneg 2 52 ltac:(lia) ltac:(lia)); lia).
  rewrite mul_int_100_normal by (rewrite ?Z2Pos.id by exact HMpos; lia).
  rewrite Z2Pos.id by exact HMpos.
  (* the threshold scaled by [2^t] *)
  assert (Hthr : Zpos mc * 2 ^ (ec - - t) = 100 * n * 2 ^ (t - 2)).
  { rewrite Hval. replace (ec - - t) with (ec + t) by lia.
    replace (25 * n * 2 ^ (- ec) * 2 ^ (ec + t))
      with (25 * n * (2 ^ (- ec) * 2 ^ (ec + t))) by ring.
    rewrite <- Z.pow_add_r by lia.
    replace (- ec + (ec + t)) with (2 + (t - 2)) by lia.
    rewrite Z.pow_add_r by lia. change (2 ^ 2) with 4. ring. }
  (* the quotient against the threshold *)
  assert (Hsplit : 2 ^ t = 128 * 2 ^ (t - 7)).
  { change 128 with (2 ^ 7). rewrite <- Z.pow_add_r by lia. f_equal. lia. }
  assert (Hsplit2 : 2 ^ (t - 2) = 32 * 2 ^ (t - 7)).
  { change 32 with (2 ^ 5). rewrite <- Z.pow_add_r by lia. f_equal. lia. }
  assert (HT7 : 2 ^ 45 <= 2 ^ (t - 7)) by (apply Z.pow_le_mono_r; lia).
  set (T7 := 2 ^ (t - 7)) in *.
  change (2 ^ 45) with 35184372088832 in HT7.
  change (2 ^ 50) with 1125899906842624 in Hb.
  assert (HMq : 4 * Zpos a < n * Zpos b -> M <= 32 * n * T7 - 1).
  { intros Hlt. rewrite HMdef. apply div_half_even_le; [lia|].
    rewrite Hsplit. nia. }
  assert (HMq' : n * Zpos b <= 4 * Zpos a -> 32 * n * T7 <= M).
  { intros Hge. rewrite HMdef. apply div_half_even_ge; [lia|].
    rewrite Hsplit. nia. }
  change (2 ^ 52) with 4503599627370496 in *.
  change (2 ^ 53) with 9007199254740992 in *.
  destruct (25 * M <? 2 ^ 57) eqn:Hj.
  - apply Z.ltb_lt in Hj. change (2 ^ 57) with 144115188075855872 in Hj.
    set (R := div_half_even (25 * M) 16).
    pose proof (div_half_even_nearest (25 * M) 16 ltac:(lia)) as Hnear. fold R in Hnear.
    assert (HR : 4503599627370496 <= R <= 9007199254740992).
    { apply div_half_even_bounds; lia. }
    rewrite (SFltb_normalised R mc (- t + 6) ec (- t));
      [| exact HR | exact Hmc | lia | lia].
    rewrite Hthr, Hsplit2. fold T7.
    replace (- t + 6 - - t) with 6 by lia. change (2 ^ 6) with 64.
    split.
    + intros Hlt. destruct (Z_lt_dec (4 * Zpos a) (n * Zpos b)) as [H|H]; [exact H|].
      exfalso. specialize (HMq' ltac:(lia)).
      assert (50 * n * T7 <= R) by (apply div_half_even_ge; lia).
      lia.
    + intros Hlt. specialize (HMq Hlt). lia.
  - apply Z.ltb_ge in Hj. change (2 ^ 57) with 144115188075855872 in Hj.
    set (R := div_half_even (25 * M) 32).
    pose proof (div_half_even_nearest (25 * M) 32 ltac:(lia)) as Hnear. fold R in Hnear.
    assert (HR : 4503599627370496 <= R <= 9007199254740992).
    { apply div_half_even_bounds; lia. }
    rewrite (SFltb_normalised R mc (- t + 7) ec (- t));
      [| exact HR | exact Hmc | lia | lia].
    rewrite Hthr, Hsplit2. fold T7.
    replace (- t + 7 - - t) with 7 by lia. change (2 ^ 7) with 128.
    split.
    + intros Hlt. destruct (Z_lt_dec (4 * Zpos a) (n * Zpos b)) as [H|H]; [exact H|].
      exfalso. specialize (HMq' ltac:(lia)).
      assert (25 * n * T7 <= R) by (apply div_half_even_ge; lia).
      lia.
    + intros Hlt. specialize (HMq Hlt). lia.
Qed.

Lemma truediv_zero (b : Z) : 0 < b -> truediv 0 b = Ok (S754_zero false).
Proof.
  intros Hb. unfold truediv.
  replace (b =? 0) with false by (symmetry; apply Z.eqb_neq; lia).
  destruct b as [|pb|pb]; try lia. reflexivity.
Qed.

(** The three comparisons of the prompt builder, read on the integers. *)
Lemma progress_comparisons (a b : Z) :
  0 <= a <= b -> 0 < b <= 2 ^ 50 ->
  exists q,
    truediv a b = Ok q /\
    (lt_int (mul_int q 100) 25 = true <-> 4 * a < b) /\
    (lt_int (mul_int q 100) 50 = true <-> 2 * a < b) /\
    (lt_int (mul_int q 100) 75 = true <-> 4 * a < 3 * b).
Proof.
  intros Ha Hb.
  destruct (Z.eq_dec a 0) as [->|Ha0].
  - exists (S754_zero false). split; [apply truediv_zero; lia|].
    repeat split; intros _; try lia; vm_compute; reflexivity.
  - destruct a as [|pa|pa]; try lia. destruct b as [|pb|pb]; try lia.
    destruct (progress_below_threshold pa pb 1 7036874417766400 (-48))
      as (q & Hq & H25); [lia | lia | lia | vm_compute; split; congruence
                          | lia | reflexivity |].
    destruct (progress_below_threshold pa pb 2 7036874417766400 (-47))
      as (q2 & Hq2 & H50); [lia | lia | lia | vm_compute; split; congruence
                            | lia | reflexivity |].
    destruct (progress_below_threshold pa pb 3 5277655813324800 (-46))
      as (q3 & Hq3 & H75); [lia | lia | lia | vm_compute; split; congruence
                            | lia | reflexivity |].
    rewrite Hq in Hq2, Hq3. injection Hq2 as <-. injection Hq3 as <-.
    exists q. split; [exact Hq|].
    unfold lt_int. rewrite float_of_int_25, float_of_int_50, float_of_int_75.
    split; [|split].
    + rewrite H25. lia.
    + rewrite H50. lia.
    + rewrite H75. lia.
Qed.

(** X10.  For a journey of at most [2^50] days the phase and the tone
    are those of the exact ratio of the days completed to the total:
    beginning below a quarter, early progress from a quarter and below a
    half, middle journey from a half and below three quarters, final
    sprint from three quarters on.  The floating-point percentage never
    falls on the other side of a bound. *)
Theorem X10_phase_of_the_exact_ratio (days_left total_target : Z) :
  0 <= days_left <= total_target -> 0 < total_target <= 2 ^ 50 ->
  exists p,
    generate_motivational_prompt days_left total_target
    = (Ok p, [Divided (total_target - days_left) total_target]) /\
    (p_phase p, p_tone p) = labels (exact_bucket (total_target - days_left) total_target).
Proof.
  intros Hd Ht.
  destruct (progress_comparisons (total_target - days_left) total_target)
    as (q & Hq & H25 & H50 & H75); [lia | lia |].
  eexists. split; [apply (generate_motivational_prompt_ok _ _ q Hq)|].
  cbn [p_phase p_tone]. rewrite <- surjective_pairing.
  unfold phase_tone, exact_bucket.
  destruct (lt_int (mul_int q 100) 25) eqn:E25.
  - replace (4 * (total_target - days_left) <? total_target) with true;
      [reflexivity|]. symmetry. apply Z.ltb_lt. apply H25. reflexivity.
  - replace (4 * (total_target - days_left) <? total_target) with false.
    2:{ symmetry. apply Z.ltb_ge. destruct H25 as [_ H25].
        destruct (Z_lt_dec (4 * (total_target - days_left)) total_target) as [H|H];
          [specialize (H25 H); discriminate | lia]. }
    destruct (lt_int (mul_int q 100) 50) eqn:E50.
    + replace (2 * (total_target - days_left) <? total_target) with true;
        [reflexivity|]. symmetry. apply Z.ltb_lt. apply H50. reflexivity.
    + replace (2 * (total_target - days_left) <? total_target) with false.
      2:{ symmetry. apply Z.ltb_ge. destruct H50 as [_ H50].
          destruct (Z_lt_dec (2 * (total_target - days_left)) total_target) as [H|H];
            [specialize (H50 H); discriminate | lia]. }
      destruct (lt_int (mul_int q 100) 75) eqn:E75.
      * replace (4 * (total_target - days_left) <? 3 * total_target) with true;
          [reflexivity|]. symmetry. apply Z.ltb_lt. apply H75. reflexivity.
      * replace (4 * (total_target - days_left) <? 3 * total_target) with false;
          [reflexivity|].
        symmetry. apply Z.ltb_ge. destruct H75 as [_ H75].
        destruct (Z_lt_dec (4 * (total_target - days_left)) (3 * total_target)) as [H|H];
          [specialize (H75 H); discriminate | lia].
Qed.

Lemma X10_witness :
  exists p,
    generate_motivational_prompt 75 100 = (Ok p, [Divided (100 - 75) 100]) /\
    (p_phase p, p_tone p) = labels (exact_bucket (100 - 75) 100).
Proof.
  apply (X10_phase_of_the_exact_ratio 75 100); [lia|].
  split; [lia|]. vm_compute. discriminate.
Defined.

















(** ** The parameters as integers *)

Lemma digit_val_digit_char (d : nat) :
  (d < 10)%nat -> digit_val (digit_char d) = Some (Z.of_nat d).
Proof.
  intros Hd. do 10 (destruct d as [|d]; [reflexivity|]). lia.
Qed.

Lemma int_space_digit_char (d : nat) :
  (d < 10)%nat -> int_space (digit_char d) = false.
Proof.
  intros Hd. do 10 (destruct d as [|d]; [reflexivity|]). lia.
Qed.

Lemma sign_digit_char (d : nat) :
  (d < 10)%nat ->
  eqb_char (digit_char d) "+"%char = false /\ eqb_char (digit_char d) "-"%char = false.
Proof.
  intros Hd. do 10 (destruct d as [|d]; [split; reflexivity|]). lia.
Qed.

Lemma parse_digits_numeral (ds : list nat) :
  Forall (fun d => (d < 10)%nat) ds ->
  forall acc b,
    parse_digits acc b (numeral ds)
    = if (b || negb (Nat.eqb (List.length ds) 0))%bool
      then Some (fold_left (fun acc d => 10 * acc + Z.of_nat d) ds acc)
      else None.
Proof.
  induction 1 as [|d ds Hd _ IH]; intros acc b.
  - cbn. destruct b; reflexivity.
  - cbn [numeral map parse_digits]. rewrite (digit_val_digit_char d Hd).
    fold (numeral ds). rewrite IH. cbn [orb fold_left List.length Nat.eqb negb].
    rewrite orb_true_r. reflexivity.
Qed.

(** Every character of a numeral counts against the limit. *)
Lemma count_digits_numeral (ds : list nat) :
  Forall (fun d => (d < 10)%nat) ds -> count_digits (numeral ds) = List.length ds.
Proof.
  unfold count_digits.
  induction 1 as [|d ds Hd _ IH]; [reflexivity|].
  cbn [numeral map filter]. unfold is_digit at 1.
  rewrite (digit_val_digit_char d Hd). cbn [List.length].
  f_equal. exact IH.
Qed.

Lemma int_literal_numeral (ds : list nat) :
  ds <> [] -> Forall (fun d => (d < 10)%nat) ds ->
  int_literal (numeral ds)
  = if (List.length ds <=? int_max_str_digits)%nat then Some (number ds) else None.
Proof.
  intros Hne Hds. unfold int_literal.
  rewrite (count_digits_numeral ds Hds), Nat.ltb_antisym.
  destruct (List.length ds <=? int_max_str_digits)%nat; [|reflexivity].
  cbv beta iota delta [negb].
  rewrite (parse_digits_numeral ds Hds).
  destruct ds as [|d ds]; [congruence | reflexivity].
Qed.

Lemma edge_free_numeral (ds : list nat) :
  Forall (fun d => (d < 10)%nat) ds -> edge_free int_space (numeral ds).
Proof.
  intros Hds.
  assert (Hall : Forall (fun c => int_space c = false) (numeral ds)).
  { unfold numeral. apply Forall_map.
    eapply Forall_impl; [|exact Hds]. intros d Hd. apply int_space_digit_char. exact Hd. }
  split; intros c s' Hc; rewrite Hc in Hall.
  - inversion Hall. assumption.
  - apply Forall_app in Hall. destruct Hall as [_ Hall]. inversion Hall. assumption.
Qed.

Lemma strip_padded (p : ascii -> bool) (pre post body : str) :
  Forall (fun c => p c = true) pre ->
  Forall (fun c => p c = true) post ->
  edge_free p body ->
  strip_by p (pre ++ body ++ post) = body.
Proof.
  intros Hpre Hpost Hbody. symmetry. apply stripped_unique.
  exists pre, post. repeat split; trivial; apply Hbody.
Qed.

Lemma edge_free_signed (c : ascii) (ds : list nat) :
  int_space c = false -> ds <> [] ->
  Forall (fun d => (d < 10)%nat) ds -> edge_free int_space (c :: numeral ds).
Proof.
  intros Hc Hne Hds. destruct (edge_free_numeral ds Hds) as [_ Hr].
  split; intros x s' Hx.
  - injection Hx as <- _. exact Hc.
  - destruct ds as [|d ds]; [congruence|].
    destruct (exists_last (l := numeral (d :: ds)) ltac:(discriminate)) as (l & y & Hl).
    rewrite Hl in Hx. change (c :: l ++ [y]) with ((c :: l) ++ [y]) in Hx.
    apply app_inj_tail in Hx. destruct Hx as [_ <-]. apply (Hr y l Hl).
Qed.

(** X12.  What [int] accepts among the parameters: a numeral of decimal
    digits, alone or after one sign, between any of the whitespace that
    [int] passes over, is read as the number it writes when it has at most
    [int_max_str_digits] digits, and is refused when it has more. *)
Theorem X12_numerals_accepted (ds : list nat) (pre post : str) :
  ds <> [] ->
  Forall (fun d => (d < 10)%nat) ds ->
  Forall (fun c => int_space c = true) pre ->
  Forall (fun c => int_space c = true) post ->
  int_of_str (pre ++ numeral ds ++ post)
  = (if (List.length ds <=? int_max_str_digits)%nat
     then Some (number ds) else None) /\
  int_of_str (pre ++ ("+"%char :: numeral ds) ++ post)
  = (if (List.length ds <=? int_max_str_digits)%nat
     then Some (number ds) else None) /\
  int_of_str (pre ++ ("-"%char :: numeral ds) ++ post)
  = (if (List.length ds <=? int_max_str_digits)%nat
     then Some (- number ds) else None).
Proof.
  intros Hne Hds Hpre Hpost.
  unfold int_of_str. split; [|split].
  - rewrite (strip_padded int_space pre post _ Hpre Hpost (edge_free_numeral ds Hds)).
    rewrite <- (int_literal_numeral ds Hne Hds).
    destruct ds as [|d ds]; [congruence|].
    cbn [numeral map]. inversion Hds as [|? ? Hd Hds']; subst.
    destruct (sign_digit_char d Hd) as [Hplus Hminus].
    rewrite Hplus, Hminus. reflexivity.
  - rewrite (strip_padded int_space pre post _ Hpre Hpost
               (edge_free_signed "+"%char ds eq_refl Hne Hds)).
    change (eqb_char "+"%char "+"%char) with true. cbv iota.
    exact (int_literal_numeral ds Hne Hds).
  - rewrite (strip_padded int_space pre post _ Hpre Hpost
               (edge_free_signed "-"%char ds eq_refl Hne Hds)).
    change (eqb_char "-"%char "+"%char) with false.
    change (eqb_char "-"%char "-"%char) with true. cbv iota.
    rewrite (int_literal_numeral ds Hne Hds).
    destruct (List.length ds <=? int_max_str_digits)%nat; reflexivity.
Qed.

Lemma X12_witness :
  int_of_str (py " " ++ numeral [2%nat; 3%nat] ++ py " ") = Some (number [2%nat; 3%nat]) /\
  int_of_str (py " " ++ ("+"%char :: numeral [2%nat; 3%nat]) ++ py " ")
  = Some (number [2%nat; 3%nat]) /\
  int_of_str (py " " ++ ("-"%char :: numeral [2%nat; 3%nat]) ++ py " ")
  = Some (- number [2%nat; 3%nat]).
Proof.
  apply (X12_numerals_accepted [2%nat; 3%nat] (py " ") (py " ")).
  - discriminate.
  - repeat constructor.
  - repeat constructor.
  - repeat constructor.
Defined.

(** The limit at work: four thousand three hundred zeros are read as
    zero, one more and the text is refused. *)
Lemma int_of_str_digit_limit :
  int_of_str (repeat "0"%char 4300) = Some 0 /\
  int_of_str (repeat "0"%char 4301) = None.
Proof. split; vm_compute; reflexivity. Qed.

Lemma int_char_space (c : ascii) : int_space c = true -> int_char c = true.
Proof.
  intros H. unfold int_char. destruct (digit_val c); [reflexivity|].
  rewrite H. reflexivity.
Qed.

Lemma parse_digits_chars (s : str) :
  forall acc b z,
    parse_digits acc b s = Some z -> Forall (fun c => int_char c = true) s.
Proof.
  induction s as [|c s IH]; intros acc b z H; [constructor|].
  cbn [parse_digits] in H. constructor.
  - unfold int_char. destruct (digit_val c); [reflexivity|].
    destruct (eqb_char c "_"%char); [|discriminate].
    rewrite orb_true_r. reflexivity.
  - destruct (digit_val c); [exact (IH _ _ _ H)|].
    destruct (eqb_char c "_"%char && b); [exact (IH _ _ _ H) | discriminate].
Qed.

Lemma int_literal_chars (r : str) (z : Z) :
  int_literal r = Some z -> Forall (fun c => int_char c = true) r.
Proof.
  unfold int_literal.
  destruct (int_max_str_digits <? count_digits r)%nat; [discriminate|].
  apply parse_digits_chars.
Qed.

(** X13.  What [int] refuses: a text that is read as a number has only
    digits, underscores, signs and the whitespace that [int] passes over,
    so a parameter with any other character (a decimal point, a letter, an
    exponent, one of the separators U+001C..U+001F) is not an integer for
    the handler. *)
Theorem X13_other_characters_refused (s : str) (c : ascii) :
  In c s -> int_char c = false -> int_of_str s = None.
Proof.
  intros Hin Hc.
  destruct (int_of_str s) as [z|] eqn:Hint; [exfalso | reflexivity].
  assert (Hall : Forall (fun c => int_char c = true) s).
  { unfold int_of_str in Hint.
    destruct (strip_by_spec int_space s) as (pre & post & Hs & Hpre & Hpost & _).
    rewrite Hs.
    apply Forall_app. split.
    { eapply Forall_impl; [|exact Hpre]. exact int_char_space. }
    apply Forall_app. split.
    2:{ eapply Forall_impl; [|exact Hpost]. exact int_char_space. }
    destruct (strip_by int_space s) as [|x r]; [constructor|].
    destruct (eqb_char x "+"%char) eqn:Hplus.
    { apply Ascii.eqb_eq in Hplus. subst x.
      constructor; [reflexivity | exact (int_literal_chars _ _ Hint)]. }
    destruct (eqb_char x "-"%char) eqn:Hminus.
    { apply Ascii.eqb_eq in Hminus. subst x.
      constructor; [reflexivity|].
      destruct (int_literal r) as [z'|] eqn:Hp; [|discriminate].
      exact (int_literal_chars _ _ Hp). }
    exact (int_literal_chars _ _ Hint). }
  rewrite Forall_forall in Hall. rewrite (Hall c Hin) in Hc. discriminate.
Qed.

Lemma X13_witness : int_of_str (py "12.5") = None.
Proof.
  apply (X13_other_characters_refused (py "12.5") "."%char).
  - vm_compute. tauto.
  - reflexivity.
Defined.
